(** * Horizon 4000 Ramdisk (TI-99 peripheral box card) and QVT-103 skeleton

    A shallow embedding of [src/devices/bus/ti99/peb/horizon.cpp] and of
    [qvt103_state::screen_update] from [src/mame/drivers/qvt103.cpp].

    Conventions of the embedding.
    - C++ [int], [offs_t] (unsigned 32 bit) and [uint8_t] are carried by [Z].
      The code only combines them with [&], [|], [~], [<<], [>>] and
      comparisons.  On two's complement integers these agree with [Z.land],
      [Z.lor], [Z.lnot], [Z.shiftl] and [Z.shiftr] as long as no bit is
      shifted out of the word; the only shifts of a run-time value are
      [m_page << 11] and [(m_page & 0xfffc) << 11], and the page register
      bound proved below ([page_register_bound]) shows that they stay below
      2^24.
    - A memory region ([ram_device::pointer()]) is a total function from the
      byte index to the byte.  The regions have 16 MiB, 8 KiB and 32 KiB
      ([device_add_mconfig]); an access outside them is undefined in the
      source, and the index bounds are proved where a claim needs them.
    - Methods that the source declares non-[const] are state transformers on
      the record [horizon_ramdisk_device]; an out-parameter [uint8_t *value]
      is passed in and returned.
    - [in_dsr_space] and [in_cart_space] belong to the peribox card interface
      ([peribox.h]), which is not part of the sources at hand; they are
      parameters of the development. *)

From Stdlib Require Import ZArith List Bool Lia.
Import ListNotations.
Local Open Scope Z_scope.

(** ** Machine types *)

Definition offs_t := Z.
Definition uint8_t := Z.

(** A memory region, indexed from 0. *)
Definition mem := Z -> uint8_t.

(** [p[i] = v] *)
Definition upd (p : mem) (i : Z) (v : uint8_t) : mem :=
  fun j => if j =? i then v else p j.

(** [memset(p, v, n)] *)
Definition memset (p : mem) (v : uint8_t) (n : Z) : mem :=
  fun j => if (0 <=? j) && (j <? n) then v else p j.

(** [memcpy(dst + to, src + from, n)] *)
Definition memcpy (dst : mem) (to : Z) (src : mem) (from n : Z) : mem :=
  fun j => if (to <=? j) && (j <? to + n) then src (from + (j - to)) else dst j.

Definition MAXSIZE : Z := 16777216.
Definition ROSSIZE : Z := 8192.

(** ** Input ports (INPUT_PORTS_START( horizon ))

    Each port is an enumeration of its PORT_DIPSETTING / PORT_CONFSETTING
    lines; [ioport("...")->read()] yields the value of the chosen line. *)

Inductive CRUHOR_setting :=
  CRUHOR_off | CRUHOR_1000 | CRUHOR_1200 | CRUHOR_1400
| CRUHOR_1500 | CRUHOR_1600 | CRUHOR_1700.

Inductive CRUPHOE_setting := CRUPHOE_off | CRUPHOE_1400 | CRUPHOE_1600.

Inductive HORIZONDUAL_setting := DUAL_off | DUAL_ti | DUAL_geneve.

Inductive HORIZONSIZE_setting := SIZE_2MiB | SIZE_4MiB | SIZE_8MiB | SIZE_16MiB.

Record ioports := mk_ioports {
  CRUHOR : CRUHOR_setting;
  CRUPHOE : CRUPHOE_setting;
  HORIZONDUAL : HORIZONDUAL_setting;
  HORIZONACT : bool;
  HORIZON32 : bool;
  RAMBO : bool;
  HORIZONSIZE : HORIZONSIZE_setting;
  GENMODFIX : bool
}.

Definition read_CRUHOR (s : CRUHOR_setting) : Z :=
  match s with
  | CRUHOR_off => 0x0000 | CRUHOR_1000 => 0x1000 | CRUHOR_1200 => 0x1200
  | CRUHOR_1400 => 0x1400 | CRUHOR_1500 => 0x1500 | CRUHOR_1600 => 0x1600
  | CRUHOR_1700 => 0x1700
  end.

Definition read_CRUPHOE (s : CRUPHOE_setting) : Z :=
  match s with
  | CRUPHOE_off => 0x0000 | CRUPHOE_1400 => 0x1400 | CRUPHOE_1600 => 0x1600
  end.

Definition read_HORIZONDUAL (s : HORIZONDUAL_setting) : Z :=
  match s with DUAL_off => 0x00 | DUAL_ti => 0x01 | DUAL_geneve => 0x02 end.

Definition read_HORIZONSIZE (s : HORIZONSIZE_setting) : Z :=
  match s with
  | SIZE_2MiB => 0x00 | SIZE_4MiB => 0x01 | SIZE_8MiB => 0x02 | SIZE_16MiB => 0x03
  end.

Definition read_onoff (b : bool) : Z := if b then 0x01 else 0x00.

(** ** Device state *)

Record horizon_ramdisk_device := mk_horizon {
  m_ram : mem;          (* "ram32k", 32 KiB, not buffered *)
  m_nvram : mem;        (* "nvram", 16 MiB *)
  m_ros : mem;          (* "ros8k", 8 KiB *)
  m_page : Z;
  m_cru_horizon : Z;
  m_cru_phoenix : Z;
  m_timode : bool;
  m_32k_installed : bool;
  m_split_mode : bool;
  m_rambo_mode : bool;
  m_hideswitch : bool;
  m_use_rambo : bool;
  m_genmod_fix : bool;
  m_selected : bool;    (* inherited from the peribox card interface *)
  ioport : ioports
}.

Definition set_m_ram (d : horizon_ramdisk_device) (p : mem) :=
  mk_horizon p (m_nvram d) (m_ros d) (m_page d) (m_cru_horizon d)
    (m_cru_phoenix d) (m_timode d) (m_32k_installed d) (m_split_mode d)
    (m_rambo_mode d) (m_hideswitch d) (m_use_rambo d) (m_genmod_fix d)
    (m_selected d) (ioport d).

Definition set_m_nvram (d : horizon_ramdisk_device) (p : mem) :=
  mk_horizon (m_ram d) p (m_ros d) (m_page d) (m_cru_horizon d)
    (m_cru_phoenix d) (m_timode d) (m_32k_installed d) (m_split_mode d)
    (m_rambo_mode d) (m_hideswitch d) (m_use_rambo d) (m_genmod_fix d)
    (m_selected d) (ioport d).

Definition set_m_ros (d : horizon_ramdisk_device) (p : mem) :=
  mk_horizon (m_ram d) (m_nvram d) p (m_page d) (m_cru_horizon d)
    (m_cru_phoenix d) (m_timode d) (m_32k_installed d) (m_split_mode d)
    (m_rambo_mode d) (m_hideswitch d) (m_use_rambo d) (m_genmod_fix d)
    (m_selected d) (ioport d).

Definition set_m_page (d : horizon_ramdisk_device) (p : Z) :=
  mk_horizon (m_ram d) (m_nvram d) (m_ros d) p (m_cru_horizon d)
    (m_cru_phoenix d) (m_timode d) (m_32k_installed d) (m_split_mode d)
    (m_rambo_mode d) (m_hideswitch d) (m_use_rambo d) (m_genmod_fix d)
    (m_selected d) (ioport d).

Definition set_m_rambo_mode (d : horizon_ramdisk_device) (b : bool) :=
  mk_horizon (m_ram d) (m_nvram d) (m_ros d) (m_page d) (m_cru_horizon d)
    (m_cru_phoenix d) (m_timode d) (m_32k_installed d) (m_split_mode d)
    b (m_hideswitch d) (m_use_rambo d) (m_genmod_fix d)
    (m_selected d) (ioport d).

Definition set_m_hideswitch (d : horizon_ramdisk_device) (b : bool) :=
  mk_horizon (m_ram d) (m_nvram d) (m_ros d) (m_page d) (m_cru_horizon d)
    (m_cru_phoenix d) (m_timode d) (m_32k_installed d) (m_split_mode d)
    (m_rambo_mode d) b (m_use_rambo d) (m_genmod_fix d)
    (m_selected d) (ioport d).

Definition set_m_selected (d : horizon_ramdisk_device) (b : bool) :=
  mk_horizon (m_ram d) (m_nvram d) (m_ros d) (m_page d) (m_cru_horizon d)
    (m_cru_phoenix d) (m_timode d) (m_32k_installed d) (m_split_mode d)
    (m_rambo_mode d) (m_hideswitch d) (m_use_rambo d) (m_genmod_fix d)
    b (ioport d).

(** [data != 0] *)
Definition nonzero (data : Z) : bool := negb (data =? 0).

(** ** The 32K expansion decoder

    [switch((offset & 0xe000)>>13)] of [readz] and [write]: the index into
    the 32K region for the four served windows, [None] for [default]. *)
Definition ram32k_window (offset : offs_t) : option Z :=
  match Z.shiftr (Z.land offset 0xe000) 13 with
  | 1 => Some (Z.land offset 0x1fff)
  | 5 => Some (Z.lor (Z.land offset 0x1fff) 0x2000)
  | 6 => Some (Z.lor (Z.land offset 0x1fff) 0x4000)
  | 7 => Some (Z.lor (Z.land offset 0x1fff) 0x6000)
  | _ => None
  end.

(** The guard [if (m_32k_installed)] around that switch. *)
Definition ram32k_index (d : horizon_ramdisk_device) (offset : offs_t) : option Z :=
  if m_32k_installed d then ram32k_window offset else None.

(** [(m_page << 11)|(offset & 0x07ff)] *)
Definition horizon_index (page : Z) (offset : offs_t) : Z :=
  Z.lor (Z.shiftl page 11) (Z.land offset 0x07ff).

(** [((m_page&0xfffc)<<11) | (offset & 0x1fff)] *)
Definition rambo_index (page : Z) (offset : offs_t) : Z :=
  Z.lor (Z.shiftl (Z.land page 0xfffc) 11) (Z.land offset 0x1fff).

Section Bus.

(** The address decoders of the peribox card interface. *)
Variable in_dsr_space : offs_t -> bool -> bool.
Variable in_cart_space : offs_t -> bool -> bool.

(** ** readz *)
Definition readz (offset : offs_t) (value : uint8_t) (d : horizon_ramdisk_device)
  : uint8_t * horizon_ramdisk_device :=
  match ram32k_index d offset with
  | Some i => (m_ram d i, d)
  | None =>
    if m_hideswitch d then (value, d)
    else if negb (m_selected d) && negb (m_rambo_mode d) then (value, d)
    else if negb (m_rambo_mode d) then
      if in_dsr_space offset (m_genmod_fix d) then
        if Z.land offset 0x1800 =? 0x1800
        then (m_nvram d (horizon_index (m_page d) offset), d)
        else (m_ros d (Z.land offset 0x1fff), d)
      else (value, d)
    else
      let value1 :=
        if in_dsr_space offset (m_genmod_fix d)
        then m_ros d (Z.land offset 0x1fff) else value in
      let value2 :=
        if in_cart_space offset (m_genmod_fix d)
        then m_nvram d (rambo_index (m_page d) offset) else value1 in
      (value2, d)
  end.

(** ** write *)
Definition write (offset : offs_t) (data : uint8_t) (d : horizon_ramdisk_device)
  : horizon_ramdisk_device :=
  match ram32k_index d offset with
  | Some i => set_m_ram d (upd (m_ram d) i data)
  | None =>
    if m_hideswitch d then d
    else if negb (m_selected d) && negb (m_rambo_mode d) then d
    else if negb (m_rambo_mode d) then
      if in_dsr_space offset (m_genmod_fix d) then
        if Z.land offset 0x1800 =? 0x1800
        then set_m_nvram d (upd (m_nvram d) (horizon_index (m_page d) offset) data)
        else set_m_ros d (upd (m_ros d) (Z.land offset 0x1fff) data)
      else d
    else
      let d1 :=
        if in_dsr_space offset (m_genmod_fix d)
        then set_m_ros d (upd (m_ros d) (Z.land offset 0x1fff) data) else d in
      if in_cart_space offset (m_genmod_fix d)
      then set_m_nvram d1 (upd (m_nvram d1) (rambo_index (m_page d1) offset) data)
      else d1
  end.

End Bus.

(** ** crureadz *)
Definition crureadz (offset : offs_t) (value : uint8_t) (d : horizon_ramdisk_device)
  : uint8_t * horizon_ramdisk_device :=
  (value, d).

(** ** setbit *)
Definition setbit (page pattern : Z) (set : bool) : Z :=
  if set then Z.lor page pattern else Z.land page (Z.lnot pattern).

(** ** cruwrite *)

(** [(offset >> 1) & 0x0f] *)
Definition cru_bit (offset : offs_t) : Z := Z.land (Z.shiftr offset 1) 0x0f.

(** [((offset & 0xff00)==m_cru_horizon)||((offset & 0xff00)==m_cru_phoenix)] *)
Definition cru_match (d : horizon_ramdisk_device) (offset : offs_t) : bool :=
  (Z.land offset 0xff00 =? m_cru_horizon d) || (Z.land offset 0xff00 =? m_cru_phoenix d).

(** The [switch (bit)] statement. *)
Definition cruwrite_switch (size bit : Z) (data : uint8_t)
    (d : horizon_ramdisk_device) : horizon_ramdisk_device :=
  let split_bit := size + 10 in
  match bit with
  | 0 => set_m_selected d (nonzero data)
  | 1 => if negb (m_rambo_mode d)
         then set_m_page d (setbit (m_page d) 0x0002 (nonzero data)) else d
  | 2 => if negb (m_rambo_mode d)
         then set_m_page d (setbit (m_page d) 0x0001 (nonzero data)) else d
  | 3 | 4 | 5 | 6 | 7 | 8 | 9 =>
      set_m_page d (setbit (m_page d) (Z.shiftl 0x0001 (bit - 1)) (nonzero data))
  | 14 => d
  | 15 => if m_use_rambo d then set_m_rambo_mode d (nonzero data) else d
  | _ =>
      if negb (bit =? split_bit) || negb (m_split_mode d) then
        if bit <=? split_bit
        then set_m_page d (setbit (m_page d) (Z.shiftl 0x0200 (bit - 10)) (nonzero data))
        else d
      else d
  end.

(** The [if (m_split_mode)] statement that follows the switch. *)
Definition cruwrite_split (size bit : Z) (offset : offs_t)
    (d : horizon_ramdisk_device) : horizon_ramdisk_device :=
  let splitpagebit := Z.shiftl 0x0200 size in
  if m_split_mode d then
    if m_timode d
    then set_m_page d (setbit (m_page d) splitpagebit
                         (Z.land offset 0xff00 =? m_cru_phoenix d))
    else set_m_page d (setbit (m_page d) splitpagebit (7 <? bit))
  else d.

Definition cruwrite (offset : offs_t) (data : uint8_t) (d : horizon_ramdisk_device)
  : horizon_ramdisk_device :=
  let size := read_HORIZONSIZE (HORIZONSIZE (ioport d)) in
  if cru_match d offset then
    let bit := cru_bit offset in
    cruwrite_split size bit offset (cruwrite_switch size bit data d)
  else d.

(** ** device_reset *)
Definition device_reset (d : horizon_ramdisk_device) : horizon_ramdisk_device :=
  let io := ioport d in
  mk_horizon (m_ram d) (m_nvram d) (m_ros d)
    0
    (read_CRUHOR (CRUHOR io))
    (read_CRUPHOE (CRUPHOE io))
    (read_HORIZONDUAL (HORIZONDUAL io) =? 1)
    (nonzero (read_onoff (HORIZON32 io)))
    (nonzero (read_HORIZONDUAL (HORIZONDUAL io)))
    false
    (nonzero (read_onoff (HORIZONACT io)))
    (nonzero (read_onoff (RAMBO io)))
    (nonzero (read_onoff (GENMODFIX io)))
    false
    io.

(** ** hs_changed *)
Definition hs_changed (newval : Z) (d : horizon_ramdisk_device) :=
  set_m_hideswitch d (nonzero newval).

(** ** NVRAM persistence *)

(** Modelled from the spec: [emu_file], the host's file object, is not part of
    the sources at hand.  A file is the sequence of its bytes.
    [file.read(buffer, length)] on a file opened at its start copies at most
    [length] bytes into the buffer and returns how many it copied;
    [file.write(buffer, length)] on a file created empty leaves exactly the
    first [length] bytes of the buffer in it. *)
Definition emu_file := list uint8_t.

Definition file_read (file : emu_file) (buffer : mem) (length : Z) : mem * Z :=
  let actual := Z.min (Z.of_nat (List.length file)) length in
  (fun j => if (0 <=? j) && (j <? actual) then nth (Z.to_nat j) file 0 else buffer j,
   actual).

Definition file_write (buffer : mem) (length : Z) : emu_file :=
  map (fun k => buffer (Z.of_nat k)) (seq 0 (Z.to_nat length)).

(** [global_alloc_array_clear<uint8_t>(n)] *)
Definition alloc_clear : mem := fun _ => 0.

(** [2097152*(1 << ioport("HORIZONSIZE")->read())] *)
Definition configured_size (d : horizon_ramdisk_device) : Z :=
  2097152 * Z.shiftl 1 (read_HORIZONSIZE (HORIZONSIZE (ioport d))).

Definition nvram_default (d : horizon_ramdisk_device) : horizon_ramdisk_device :=
  let size := configured_size d in
  let d1 := set_m_nvram d (memset (m_nvram d) 0 size) in
  set_m_ros d1 (memset (m_ros d1) 0 ROSSIZE).

Definition nvram_read (file : emu_file) (d : horizon_ramdisk_device)
  : horizon_ramdisk_device :=
  let size := configured_size d in
  let buffer := alloc_clear in
  let d1 := set_m_nvram d (memset (m_nvram d) 0 size) in
  let d2 := set_m_ros d1 (memset (m_ros d1) 0 ROSSIZE) in
  let '(buffer, filesize) := file_read file buffer (MAXSIZE + ROSSIZE) in
  let nvramsize := filesize - ROSSIZE in
  if 0 <=? nvramsize then
    let d3 := set_m_nvram d2 (memcpy (m_nvram d2) 0 buffer 0 nvramsize) in
    set_m_ros d3 (memcpy (m_ros d3) 0 buffer nvramsize ROSSIZE)
  else d2.

Definition nvram_write (d : horizon_ramdisk_device) : emu_file :=
  let nvramsize := configured_size d in
  let buffer := alloc_clear in
  let buffer := memcpy buffer 0 (m_nvram d) 0 nvramsize in
  let buffer := memcpy buffer nvramsize (m_ros d) 0 ROSSIZE in
  file_write buffer (nvramsize + ROSSIZE).

(** ** qvt103_state::screen_update

    The driver state, the screen, the bitmap and the rectangle are host
    types; the method receives the first three by reference and hands them
    back together with its result. *)
Section Qvt103.

Variables qvt103_state screen_device bitmap_rgb32 rectangle : Type.

Definition screen_update (this : qvt103_state) (screen : screen_device)
    (bitmap : bitmap_rgb32) (cliprect : rectangle)
  : Z * (qvt103_state * screen_device * bitmap_rgb32) :=
  (0, (this, screen, bitmap)).

End Qvt103.

(** ** The CRU lines in the words of the specification

    The page pattern that a CRU bit sets or clears: bits 1 and 2, when not in
    RAMBO mode, drive [0x0002] and [0x0001] (the two lines swapped); bits 3
    to 9 drive [0x0001 << (bit - 1)]; bits 10 to 13 drive
    [0x0200 << (bit - 10)] unless the bit is the split bit [size + 10] while
    split mode is on, or exceeds the split bit; the other bits drive no page
    line.  This is compared with [cruwrite] below. *)
Definition cru_page_pattern (d : horizon_ramdisk_device) (size bit : Z) : option Z :=
  if bit =? 1 then (if m_rambo_mode d then None else Some 0x0002)
  else if bit =? 2 then (if m_rambo_mode d then None else Some 0x0001)
  else if (3 <=? bit) && (bit <=? 9) then Some (Z.shiftl 0x0001 (bit - 1))
  else if (10 <=? bit) && (bit <=? 13) then
    if ((bit =? size + 10) && m_split_mode d) || (size + 10 <? bit) then None
    else Some (Z.shiftl 0x0200 (bit - 10))
  else None.

(** The number of the page bit behind that pattern. *)
Definition cru_page_line (bit : Z) : Z :=
  if bit =? 1 then 1 else if bit =? 2 then 0 else bit - 1.

(** The value the split/dual-drive selection gives to the split page bit:
    in TI mode whether the access came through the Phoenix CRU base, in
    Geneve mode whether the CRU bit number is above 7. *)
Definition split_drive (d : horizon_ramdisk_device) (offset : offs_t) : bool :=
  if m_timode d then Z.land offset 0xff00 =? m_cru_phoenix d
  else 7 <? cru_bit offset.

(** ** Runs of CRU writes *)

(** A sequence of [cruwrite] calls, given by their arguments. *)
Definition cruwrites (calls : list (offs_t * uint8_t)) (d : horizon_ramdisk_device)
  : horizon_ramdisk_device :=
  fold_left (fun d c => cruwrite (fst c) (snd c) d) calls d.

(** ** Concrete configurations used to exercise the statements *)

(** The windows named in the header comment of the source: DSR space is
    4000-5fff and cartridge space is 6000-7fff. *)
Definition dsr_4000 (offset : offs_t) (amadec : bool) : bool :=
  Z.land offset 0xe000 =? 0x4000.

Definition cart_6000 (offset : offs_t) (amadec : bool) : bool :=
  Z.land offset 0xe000 =? 0x6000.

(** The default settings of the input ports. *)
Definition default_ports : ioports :=
  mk_ioports CRUHOR_1200 CRUPHOE_off DUAL_off false false true SIZE_2MiB false.

(** A card after [device_reset], with some recognisable memory contents. *)
Definition sample_card (io : ioports) : horizon_ramdisk_device :=
  device_reset
    (mk_horizon (fun _ => 0) (fun i => Z.land i 0xff) (fun i => Z.land (i + 1) 0xff)
       0 0 0 false false false false false false false false io).

(** The same card selected through CRU bit 0 at base 1200. *)
Definition selected_card : horizon_ramdisk_device :=
  cruwrite 0x1200 1 (sample_card default_ports).

(** The same card, not selected, with page 4 chosen through CRU bit 3 and
    then switched to RAMBO mode through CRU bit 15. *)
Definition rambo_card : horizon_ramdisk_device :=
  cruwrite 0x121e 1 (cruwrite 0x1206 1 (sample_card default_ports)).

(** A 4 MiB card split in TI mode, Phoenix base 1400, with the 32K
    expansion installed and the hideswitch on. *)
Definition expansion_ports : ioports :=
  mk_ioports CRUHOR_1200 CRUPHOE_1400 DUAL_ti true true true SIZE_4MiB false.

Definition expansion_card : horizon_ramdisk_device := sample_card expansion_ports.

(** A file one byte longer than the buffer of [nvram_read]: zeros, then a
    final byte 1. *)
Definition oversize_file : emu_file :=
  repeat 0 (Z.to_nat (MAXSIZE + ROSSIZE)) ++ [1].

(** ** Further parts of the sources *)

(** [device_start]: clears both CRU bases; the [save_item] registrations
    belong to the host's save-state mechanism and leave the card alone. *)
Definition device_start (d : horizon_ramdisk_device) : horizon_ramdisk_device :=
  mk_horizon (m_ram d) (m_nvram d) (m_ros d) (m_page d) 0 0
    (m_timode d) (m_32k_installed d) (m_split_mode d) (m_rambo_mode d)
    (m_hideswitch d) (m_use_rambo d) (m_genmod_fix d) (m_selected d) (ioport d).

(** Everything of the card but its three memories. *)
Definition registers (d : horizon_ramdisk_device) :=
  (m_page d, m_cru_horizon d, m_cru_phoenix d, m_timode d, m_32k_installed d,
   m_split_mode d, m_rambo_mode d, m_hideswitch d, m_use_rambo d,
   m_genmod_fix d, m_selected d, ioport d).

Section BusDecode.

Variable in_dsr_space : offs_t -> bool -> bool.
Variable in_cart_space : offs_t -> bool -> bool.

(** Whether [readz] and [write] reach one of the three memories at
    [offset]: the conjunction of the guards on the path to an assignment. *)
Definition access_decoded (d : horizon_ramdisk_device) (offset : offs_t) : bool :=
  match ram32k_index d offset with
  | Some _ => true
  | None =>
      negb (m_hideswitch d)
      && (if m_rambo_mode d
          then in_dsr_space offset (m_genmod_fix d)
               || in_cart_space offset (m_genmod_fix d)
          else m_selected d && in_dsr_space offset (m_genmod_fix d))
  end.

(** A sequence of [write] calls, given by their arguments. *)
Definition writes (calls : list (offs_t * uint8_t)) (d : horizon_ramdisk_device)
  : horizon_ramdisk_device :=
  fold_left (fun d c => write in_dsr_space in_cart_space (fst c) (snd c) d) calls d.

End BusDecode.

(** Whether the 32K expansion serves the offset. *)
Definition served_by_32k (d : horizon_ramdisk_device) (offset : offs_t) : bool :=
  match ram32k_index d offset with Some _ => true | None => false end.

(** The settings that only [device_start] and [device_reset] assign. *)
Definition configuration (d : horizon_ramdisk_device) :=
  (m_cru_horizon d, m_cru_phoenix d, m_timode d, m_32k_installed d,
   m_split_mode d, m_use_rambo d, m_genmod_fix d, ioport d).

(** The calls the host makes on a running card: the bus callbacks and the
    change notification of the hideswitch. *)
Inductive bus_op :=
| op_readz (offset : offs_t) (value : uint8_t)
| op_write (offset : offs_t) (data : uint8_t)
| op_crureadz (offset : offs_t) (value : uint8_t)
| op_cruwrite (offset : offs_t) (data : uint8_t)
| op_hs_changed (newval : Z).

Section BusRun.

Variable in_dsr_space : offs_t -> bool -> bool.
Variable in_cart_space : offs_t -> bool -> bool.

Definition step (d : horizon_ramdisk_device) (op : bus_op) : horizon_ramdisk_device :=
  match op with
  | op_readz offset value => snd (readz in_dsr_space in_cart_space offset value d)
  | op_write offset data => write in_dsr_space in_cart_space offset data d
  | op_crureadz offset value => snd (crureadz offset value d)
  | op_cruwrite offset data => cruwrite offset data d
  | op_hs_changed newval => hs_changed newval d
  end.

Definition run (ops : list bus_op) (d : horizon_ramdisk_device)
  : horizon_ramdisk_device :=
  fold_left step ops d.

End BusRun.

(** The CRU writes that spell a page number out on the page lines: for each
    CRU bit 1 to 13 at CRU base [base], the value of the page bit that the
    bit drives. *)
Definition page_line_writes (base page : Z) (bits : list Z) : list (offs_t * uint8_t) :=
  map (fun bit =>
         (base + 2 * bit, if Z.testbit page (cru_page_line bit) then 1 else 0))
      bits.

Definition select_page (base page : Z) : list (offs_t * uint8_t) :=
  page_line_writes base page [1; 2; 3; 4; 5; 6; 7; 8; 9; 10; 11; 12; 13].

(** The card with other contents in its two buffered memories. *)
Definition with_buffered (d : horizon_ramdisk_device) (nvram ros : mem)
  : horizon_ramdisk_device :=
  set_m_ros (set_m_nvram d nvram) ros.

(** A card configured without RAMBO. *)
Definition plain_ports : ioports :=
  mk_ioports CRUHOR_1200 CRUPHOE_off DUAL_off false false false SIZE_2MiB false.

(** ** HLCD 0538 (hlcd0538.h)

    The pin and shift-register state declared by the class, and the one
    member the header defines inline. *)
Record hlcd0538_device := mk_hlcd0538 {
  m_int : Z;
  m_clk : Z;
  m_data : Z;
  m_shift : Z
}.

(** [write_data]: [m_data = (state) ? 1 : 0] *)
Definition write_data (state : Z) (c : hlcd0538_device) : hlcd0538_device :=
  mk_hlcd0538 (m_int c) (m_clk c) (if nonzero state then 1 else 0) (m_shift c).

(** ** QVT-103 address maps (qvt103.cpp)

    Each [map(start, end)] line of [mem_map] and [io_map], with the device
    or memory it installs there.  A later line of a map takes precedence over
    an earlier one where two overlap. *)
Inductive qvt103_target :=
  T_rom | T_kbdmcu | T_nvram | T_vpac | T_ram | T_dart | T_ctc.

Record map_entry := mk_entry {
  addr_start : Z;
  addr_end : Z;
  target : qvt103_target
}.

Definition mem_map : list map_entry :=
  [ mk_entry 0x0000 0x5fff T_rom;
    mk_entry 0x6000 0x6001 T_kbdmcu;
    mk_entry 0x8000 0x87ff T_nvram;
    mk_entry 0xa000 0xa03f T_vpac;
    mk_entry 0xc000 0xffff T_ram ].

Definition io_map : list map_entry :=
  [ mk_entry 0x14 0x17 T_dart;
    mk_entry 0x18 0x1b T_ctc ].

(** [map.global_mask(0xff)] *)
Definition io_global_mask : Z := 0xff.

Definition covers (a : Z) (e : map_entry) : bool :=
  (addr_start e <=? a) && (a <=? addr_end e).

(** The entry that serves address [a]: the last line that covers it. *)
Definition map_lookup (m : list map_entry) (a : Z) : option qvt103_target :=
  option_map target (find (covers a) (rev m)).

Definition mem_lookup (a : Z) : option qvt103_target := map_lookup mem_map a.

Definition io_lookup (a : Z) : option qvt103_target :=
  map_lookup io_map (Z.land a io_global_mask).

(** * Properties *)

(** ** Bit-level and arithmetic helpers *)

Lemma land_low_ones (x : Z) (n : Z) :
  0 <= n -> Z.land x (Z.ones n) = x mod 2 ^ n.
Proof. intros Hn. now apply Z.land_ones. Qed.

(** Or-ing a value below [2^n] with a multiple of [2^n] adds them. *)
Lemma lor_disjoint_add (r h n : Z) :
  0 <= n -> 0 <= r < 2 ^ n -> Z.lor r (Z.shiftl h n) = r + h * 2 ^ n.
Proof.
  intros Hn Hr.
  assert (Hland : Z.land r (Z.shiftl h n) = 0).
  { apply Z.bits_inj'. intros m Hm.
    rewrite Z.land_spec, Z.bits_0.
    destruct (Z.lt_ge_cases m n) as [Hlt | Hge].
    - rewrite Z.shiftl_spec_low by assumption. apply andb_false_r.
    - replace r with (r mod 2 ^ n) by (apply Z.mod_small; lia).
      rewrite Z.mod_pow2_bits_high by lia. reflexivity. }
  rewrite <- Z.lxor_lor by assumption.
  rewrite <- Z.add_nocarry_lxor by assumption.
  now rewrite Z.shiftl_mul_pow2.
Qed.

(** The window selector of the 32K decoder only looks at address lines
    13 to 15. *)
Lemma window_selector (offset : offs_t) :
  Z.shiftr (Z.land offset 0xe000) 13 = Z.land offset 0xffff / 8192.
Proof.
  rewrite Z.shiftr_land.
  change (Z.shiftr 0xe000 13) with (Z.ones 3).
  change 0xffff with (Z.ones 16).
  rewrite !land_low_ones by lia.
  rewrite Z.shiftr_div_pow2 by lia.
  change (2 ^ 13) with 8192. change (2 ^ 3) with 8. change (2 ^ 16) with 65536.
  Z.div_mod_to_equations. lia.
Qed.

Lemma window_offset (offset : offs_t) :
  Z.land offset 0x1fff = Z.land offset 0xffff mod 8192.
Proof.
  change 0x1fff with (Z.ones 13). change 0xffff with (Z.ones 16).
  rewrite !land_low_ones by lia.
  change (2 ^ 13) with 8192. change (2 ^ 16) with 65536.
  Z.div_mod_to_equations. lia.
Qed.

(** The decoder, read as arithmetic on the 16 address lines. *)
Lemma ram32k_window_spec (offset : offs_t) :
  let a := Z.land offset 0xffff in
  0x2000 <= a <= 0x3fff \/ 0xa000 <= a <= 0xffff ->
  ram32k_window offset = Some (if a <? 0x4000 then a - 0x2000 else a - 0x8000).
Proof.
  intros a Ha. unfold ram32k_window.
  rewrite window_selector, window_offset. fold a.
  assert (Hr : 0 <= a mod 8192 < 2 ^ 13) by (apply Z.mod_pos_bound; reflexivity).
  assert (Hq : a = 8192 * (a / 8192) + a mod 8192) by (apply Z.div_mod; lia).
  change (2 ^ 13) with 8192 in Hr.
  assert (Hcases : a / 8192 = 1 \/ a / 8192 = 5 \/ a / 8192 = 6 \/ a / 8192 = 7) by lia.
  destruct Hcases as [E | [E | [E | E]]]; rewrite E in *; cbv iota beta.
  - destruct (Z.ltb_spec a 0x4000); f_equal; lia.
  - change (Z.lor (a mod 8192) 0x2000) with (Z.lor (a mod 8192) (Z.shiftl 1 13)).
    rewrite lor_disjoint_add by (change (2 ^ 13) with 8192; lia).
    destruct (Z.ltb_spec a 0x4000); f_equal; lia.
  - change (Z.lor (a mod 8192) 0x4000) with (Z.lor (a mod 8192) (Z.shiftl 2 13)).
    rewrite lor_disjoint_add by (change (2 ^ 13) with 8192; lia).
    destruct (Z.ltb_spec a 0x4000); f_equal; lia.
  - change (Z.lor (a mod 8192) 0x6000) with (Z.lor (a mod 8192) (Z.shiftl 3 13)).
    rewrite lor_disjoint_add by (change (2 ^ 13) with 8192; lia).
    destruct (Z.ltb_spec a 0x4000); f_equal; lia.
Qed.

(** ** Memory access *)

Section BusProperties.

Variable in_dsr_space : offs_t -> bool -> bool.
Variable in_cart_space : offs_t -> bool -> bool.

(** C1.  Horizon page mode: with [m_rambo_mode] false, the card selected,
    the hideswitch off and the offset not taken by the 32K expansion, an
    access in DSR space goes to NVRAM byte [(m_page << 11) | (offset & 0x07ff)]
    when [(offset & 0x1800) == 0x1800] and to ROS byte [offset & 0x1fff]
    otherwise.  [readz] returns that byte and leaves the card alone.
    After [write] that byte holds [data]; every other byte of NVRAM and of
    ROS, the whole 32K RAM and every register are as before. *)
Theorem horizon_page_mode_access :
  forall (d : horizon_ramdisk_device) (offset : offs_t) (value data : uint8_t)
         (i : Z),
    m_rambo_mode d = false ->
    in_dsr_space offset (m_genmod_fix d) = true ->
    m_selected d = true ->
    m_hideswitch d = false ->
    ram32k_index d offset = None ->
    let paged := Z.land offset 0x1800 =? 0x1800 in
    let nvram_at := Z.lor (Z.shiftl (m_page d) 11) (Z.land offset 0x07ff) in
    let ros_at := Z.land offset 0x1fff in
    let d' := write in_dsr_space in_cart_space offset data d in
    readz in_dsr_space in_cart_space offset value d =
      (if paged then m_nvram d nvram_at else m_ros d ros_at, d)
    /\ m_nvram d' i =
         (if paged && (i =? nvram_at) then data else m_nvram d i)
    /\ m_ros d' i =
         (if negb paged && (i =? ros_at) then data else m_ros d i)
    /\ m_ram d' = m_ram d
    /\ registers d' = registers d.
Proof.
  intros d offset value data i Hrambo Hdsr Hsel Hhide H32 paged nvram_at ros_at d'.
  subst d'. unfold readz, write, horizon_index.
  rewrite H32, Hhide, Hsel, Hrambo, Hdsr. cbn [negb andb].
  fold paged nvram_at ros_at.
  destruct paged; cbn [negb andb m_nvram m_ros m_ram set_m_nvram set_m_ros];
    unfold upd; repeat split; destruct (i =? _); reflexivity.
Qed.

(** C2.  RAMBO block mode: with [m_rambo_mode] true and the hideswitch off,
    whether or not the card is selected, an access outside the 32K windows
    goes to ROS byte [offset & 0x1fff] in DSR space and to NVRAM byte
    [((m_page & 0xfffc) << 11) | (offset & 0x1fff)] in cartridge space.
    [readz] returns that byte and leaves the card alone.  After [write]
    that byte holds [data]; every other byte of ROS and of NVRAM, the whole
    32K RAM and every register are as before.
    The two decoders are parameters here; the source tests DSR space first
    and cartridge space second, so were an offset in both, [readz] would
    end with the NVRAM byte and [write] would store to both places. *)
Theorem rambo_block_mode_access :
  forall (d : horizon_ramdisk_device) (offset : offs_t) (value data : uint8_t)
         (i : Z),
    m_rambo_mode d = true ->
    m_hideswitch d = false ->
    ram32k_index d offset = None ->
    let dsr := in_dsr_space offset (m_genmod_fix d) in
    let cart := in_cart_space offset (m_genmod_fix d) in
    let block := Z.lor (Z.shiftl (Z.land (m_page d) 0xfffc) 11) (Z.land offset 0x1fff) in
    let ros_at := Z.land offset 0x1fff in
    let d' := write in_dsr_space in_cart_space offset data d in
    readz in_dsr_space in_cart_space offset value d =
      (if cart then m_nvram d block
       else if dsr then m_ros d ros_at
       else value,
       d)
    /\ m_ros d' i = (if dsr && (i =? ros_at) then data else m_ros d i)
    /\ m_nvram d' i = (if cart && (i =? block) then data else m_nvram d i)
    /\ m_ram d' = m_ram d
    /\ registers d' = registers d.
Proof.
  intros d offset value data i Hrambo Hhide H32 dsr cart block ros_at d'.
  subst d'. unfold readz, write, rambo_index.
  rewrite H32, Hhide, Hrambo. rewrite andb_false_r. cbn [negb].
  fold dsr cart block ros_at.
  destruct d; destruct dsr, cart; cbn; unfold upd;
    repeat split; destruct (i =? _); reflexivity.
Qed.

(** C9.  32K expansion bypass: with the expansion installed, an access whose
    16 address lines fall in 2000-3fff or a000-ffff (the windows a000-bfff,
    c000-dfff and e000-ffff) is served from the 32K region, at an index
    below 32768, whatever the hideswitch, the selection and the RAMBO mode
    are.  [readz] returns the byte at that index and leaves the card alone.
    After [write] that byte of the 32K region holds [data]; every other
    byte of the 32K region, all of NVRAM and ROS and every register are as
    before. *)
Theorem ram32k_bypass :
  forall (d : horizon_ramdisk_device) (offset : offs_t) (value data : uint8_t)
         (j : Z),
    m_32k_installed d = true ->
    (0x2000 <= Z.land offset 0xffff <= 0x3fff
     \/ 0xa000 <= Z.land offset 0xffff <= 0xffff) ->
    let a := Z.land offset 0xffff in
    let i := if a <? 0x4000 then a - 0x2000 else a - 0x8000 in
    let d' := write in_dsr_space in_cart_space offset data d in
    0 <= i < 32768
    /\ readz in_dsr_space in_cart_space offset value d = (m_ram d i, d)
    /\ m_ram d' j = (if j =? i then data else m_ram d j)
    /\ m_nvram d' = m_nvram d
    /\ m_ros d' = m_ros d
    /\ registers d' = registers d.
Proof.
  intros d offset value data j H32 Hwin a i d'.
  pose proof (ram32k_window_spec offset Hwin) as Hspec. fold a i in Hspec.
  subst d'. unfold readz, write, ram32k_index.
  rewrite H32, Hspec. cbn [m_ram m_nvram m_ros set_m_ram].
  split.
  { subst i. fold a in Hwin. destruct (Z.ltb_spec a 0x4000); lia. }
  split; [reflexivity |]. split.
  { unfold upd. destruct (j =? i); reflexivity. }
  repeat split.
Qed.

(** C10.  There is no CRU read, and reading is pure: [crureadz] hands back
    [*value] and the device as they were; [readz] never changes the device;
    and with the hideswitch on, outside the 32K windows, [readz] hands back
    [*value] as it was. *)
Theorem crureadz_readz_pure :
  forall (d : horizon_ramdisk_device) (offset : offs_t) (value : uint8_t),
    crureadz offset value d = (value, d)
    /\ snd (readz in_dsr_space in_cart_space offset value d) = d
    /\ (m_hideswitch d = true -> ram32k_index d offset = None ->
        fst (readz in_dsr_space in_cart_space offset value d) = value).
Proof.
  intros d offset value. split; [reflexivity | split].
  - unfold readz.
    destruct (ram32k_index d offset); [reflexivity |].
    destruct (m_hideswitch d); [reflexivity |].
    destruct (negb (m_selected d) && negb (m_rambo_mode d)); [reflexivity |].
    destruct (negb (m_rambo_mode d)).
    + destruct (in_dsr_space offset (m_genmod_fix d)); [| reflexivity].
      destruct (Z.land offset 0x1800 =? 0x1800); reflexivity.
    + reflexivity.
  - intros Hhide H32. unfold readz. now rewrite H32, Hhide.
Qed.

End BusProperties.

(** ** Ranges of bit patterns *)

Lemma in_range_land_ones (x n : Z) :
  0 <= n -> (0 <= x < 2 ^ n <-> Z.land x (Z.ones n) = x).
Proof.
  intros Hn. rewrite land_low_ones by assumption. split.
  - intros Hx. now apply Z.mod_small.
  - intros <-. apply Z.mod_pos_bound. now apply Z.pow_pos_nonneg.
Qed.

Lemma lor_range (x y n : Z) :
  0 <= n -> 0 <= x < 2 ^ n -> 0 <= y < 2 ^ n -> 0 <= Z.lor x y < 2 ^ n.
Proof.
  intros Hn Hx Hy.
  apply in_range_land_ones in Hx; [| assumption].
  apply in_range_land_ones in Hy; [| assumption].
  apply in_range_land_ones; [assumption |].
  rewrite Z.land_lor_distr_l. now rewrite Hx, Hy.
Qed.

Lemma land_range (x y n : Z) :
  0 <= n -> 0 <= x < 2 ^ n -> 0 <= Z.land x y < 2 ^ n.
Proof.
  intros Hn Hx.
  apply in_range_land_ones in Hx; [| assumption].
  apply in_range_land_ones; [assumption |].
  rewrite <- Z.land_assoc, (Z.land_comm y), Z.land_assoc. now rewrite Hx.
Qed.

Lemma setbit_range (page pattern n : Z) (set : bool) :
  0 <= n -> 0 <= page < 2 ^ n -> 0 <= pattern < 2 ^ n ->
  0 <= setbit page pattern set < 2 ^ n.
Proof.
  intros Hn Hp Hm. unfold setbit. destruct set.
  - now apply lor_range.
  - now apply land_range.
Qed.

(** [setbit] gives the bits of the pattern the value [set] and keeps the
    others. *)
Lemma testbit_setbit (page pattern j : Z) (set : bool) :
  0 <= j ->
  Z.testbit (setbit page pattern set) j =
    if Z.testbit pattern j then set else Z.testbit page j.
Proof.
  intros Hj. unfold setbit. destruct set.
  - rewrite Z.lor_spec. destruct (Z.testbit pattern j).
    + apply orb_true_r.
    + apply orb_false_r.
  - rewrite Z.land_spec, Z.lnot_spec by assumption.
    destruct (Z.testbit pattern j); cbn [negb].
    + apply andb_false_r.
    + apply andb_true_r.
Qed.

Lemma shiftl_0x200 (n : Z) : 0 <= n -> Z.shiftl 0x0200 n = 2 ^ (9 + n).
Proof.
  intros Hn. rewrite Z.shiftl_mul_pow2 by assumption.
  rewrite Z.pow_add_r by lia. reflexivity.
Qed.

Lemma testbit_pow2 (n j : Z) : 0 <= n -> Z.testbit (2 ^ n) j = (j =? n).
Proof. intros Hn. rewrite Z.pow2_bits_eqb by assumption. apply Z.eqb_sym. Qed.

Lemma read_HORIZONSIZE_range (s : HORIZONSIZE_setting) :
  0 <= read_HORIZONSIZE s <= 3.
Proof. destruct s; cbn; lia. Qed.

Lemma cru_bit_range (offset : offs_t) : 0 <= cru_bit offset <= 15.
Proof.
  unfold cru_bit.
  change (Z.land (Z.shiftr offset 1) 0x0f) with (Z.land (Z.shiftr offset 1) (Z.ones 4)).
  rewrite land_low_ones by lia.
  pose proof (Z.mod_pos_bound (Z.shiftr offset 1) (2 ^ 4) eq_refl) as H.
  change (2 ^ 4) with 16 in *. lia.
Qed.

(** ** CRU writes *)

(** The switch statement only moves [m_selected], [m_rambo_mode] and
    [m_page]. *)
Lemma cruwrite_switch_frame (size bit : Z) (data : uint8_t) (d : horizon_ramdisk_device) :
  0 <= bit <= 15 ->
  let d1 := cruwrite_switch size bit data d in
  m_split_mode d1 = m_split_mode d /\ m_timode d1 = m_timode d
  /\ m_cru_phoenix d1 = m_cru_phoenix d /\ m_cru_horizon d1 = m_cru_horizon d
  /\ ioport d1 = ioport d /\ m_use_rambo d1 = m_use_rambo d
  /\ m_selected d1 = (if bit =? 0 then nonzero data else m_selected d)
  /\ m_rambo_mode d1 =
       (if (bit =? 15) && m_use_rambo d then nonzero data else m_rambo_mode d).
Proof.
  intros Hbit.
  assert (Hcases : bit = 0 \/ bit = 1 \/ bit = 2 \/ bit = 3 \/ bit = 4 \/ bit = 5
                   \/ bit = 6 \/ bit = 7 \/ bit = 8 \/ bit = 9 \/ bit = 10
                   \/ bit = 11 \/ bit = 12 \/ bit = 13 \/ bit = 14 \/ bit = 15) by lia.
  unfold cruwrite_switch. destruct d.
  repeat (destruct Hcases as [-> | Hcases]); [.. | subst bit];
    cbn -[Z.shiftl setbit Z.add Z.eqb Z.leb];
    repeat match goal with
           | |- context [?a =? ?b] => destruct (Z.eqb_spec a b); try lia
           | |- context [?a <=? ?b] => destruct (Z.leb_spec a b); try lia
           end;
    destruct m_rambo_mode0, m_split_mode0, m_use_rambo0; repeat split; reflexivity.
Qed.

(** The switch statement sets or clears exactly the pattern that the
    specification assigns to the CRU bit. *)
Lemma cruwrite_switch_page (size bit : Z) (data : uint8_t) (d : horizon_ramdisk_device) :
  0 <= bit <= 15 ->
  m_page (cruwrite_switch size bit data d) =
    match cru_page_pattern d size bit with
    | Some pattern => setbit (m_page d) pattern (nonzero data)
    | None => m_page d
    end.
Proof.
  intros Hbit.
  assert (Hcases : bit = 0 \/ bit = 1 \/ bit = 2 \/ bit = 3 \/ bit = 4 \/ bit = 5
                   \/ bit = 6 \/ bit = 7 \/ bit = 8 \/ bit = 9 \/ bit = 10
                   \/ bit = 11 \/ bit = 12 \/ bit = 13 \/ bit = 14 \/ bit = 15) by lia.
  unfold cruwrite_switch, cru_page_pattern. destruct d.
  repeat (destruct Hcases as [-> | Hcases]); [.. | subst bit];
    cbn -[Z.shiftl setbit Z.add Z.eqb Z.leb Z.ltb];
    repeat match goal with
           | |- context [?a =? ?b] => destruct (Z.eqb_spec a b); try lia
           | |- context [?a <=? ?b] => destruct (Z.leb_spec a b); try lia
           | |- context [?a <? ?b] => destruct (Z.ltb_spec a b); try lia
           end;
    destruct m_rambo_mode0, m_split_mode0, m_use_rambo0; reflexivity.
Qed.

(** Every pattern is a single page bit among bits 0 to 12. *)
Lemma cru_page_pattern_pow2 (d : horizon_ramdisk_device) (size bit pattern : Z) :
  cru_page_pattern d size bit = Some pattern ->
  pattern = 2 ^ cru_page_line bit /\ 0 <= cru_page_line bit <= 12 /\ 1 <= bit <= 13.
Proof.
  unfold cru_page_pattern, cru_page_line.
  destruct (Z.eqb_spec bit 1) as [-> | H1].
  { destruct (m_rambo_mode d); [discriminate |].
    intros [= <-]. repeat split; lia. }
  destruct (Z.eqb_spec bit 2) as [-> | H2].
  { destruct (m_rambo_mode d); [discriminate |].
    intros [= <-]. repeat split; lia. }
  destruct (Z.leb_spec 3 bit), (Z.leb_spec bit 9); cbn [andb].
  { intros [= <-]. rewrite Z.shiftl_1_l. repeat split; lia. }
  all: destruct (Z.leb_spec 10 bit), (Z.leb_spec bit 13); cbn [andb];
    try discriminate; try lia.
  destruct (((bit =? size + 10) && m_split_mode d) || (size + 10 <? bit));
    [discriminate |].
  intros [= <-]. rewrite shiftl_0x200 by lia.
  replace (9 + (bit - 10)) with (bit - 1) by lia. repeat split; lia.
Qed.

Lemma cru_page_pattern_range (d : horizon_ramdisk_device) (size bit pattern : Z) :
  cru_page_pattern d size bit = Some pattern -> 0 <= pattern < 2 ^ 13.
Proof.
  intros H. apply cru_page_pattern_pow2 in H as (-> & Hline & _). split.
  - apply Z.pow_nonneg. lia.
  - apply Z.pow_lt_mono_r; lia.
Qed.

(** With split mode off, the only CRU bit whose pattern is the split page
    bit is bit [size + 10]. *)
Lemma cru_page_pattern_split_line (d : horizon_ramdisk_device) (size bit : Z) :
  0 <= size <= 3 -> m_split_mode d = false ->
  match cru_page_pattern d size bit with
  | Some pattern => Z.testbit pattern (9 + size)
  | None => false
  end = (bit =? size + 10).
Proof.
  intros Hsize Hsplit.
  destruct (cru_page_pattern d size bit) as [pattern |] eqn:Hpat.
  - pose proof Hpat as Hpat'.
    apply cru_page_pattern_pow2 in Hpat' as (-> & Hline & Hbit).
    rewrite testbit_pow2 by lia. clear Hpat Hline.
    unfold cru_page_line.
    destruct (Z.eqb_spec bit 1), (Z.eqb_spec bit 2),
      (Z.eqb_spec bit (size + 10)); subst;
      match goal with |- (?a =? ?b) = _ => destruct (Z.eqb_spec a b) end;
      try reflexivity; lia.
  - revert Hpat. unfold cru_page_pattern. rewrite Hsplit, andb_false_r.
    destruct (Z.eqb_spec bit (size + 10)) as [-> | Hne]; [| reflexivity].
    destruct (Z.eqb_spec (size + 10) 1); [lia |].
    destruct (Z.eqb_spec (size + 10) 2); [lia |].
    destruct (Z.leb_spec 3 (size + 10)), (Z.leb_spec (size + 10) 9); cbn [andb orb];
      try lia.
    destruct (Z.leb_spec 10 (size + 10)), (Z.leb_spec (size + 10) 13); cbn [andb];
      try lia.
    destruct (Z.ltb_spec (size + 10) (size + 10)); [lia | discriminate].
Qed.

(** The page register after a matching [cruwrite]: the switch statement
    followed by the split selection. *)
Lemma cruwrite_page (d : horizon_ramdisk_device) (offset : offs_t) (data : uint8_t) :
  cru_match d offset = true ->
  let size := read_HORIZONSIZE (HORIZONSIZE (ioport d)) in
  let paged :=
    match cru_page_pattern d size (cru_bit offset) with
    | Some pattern => setbit (m_page d) pattern (nonzero data)
    | None => m_page d
    end in
  m_page (cruwrite offset data d) =
    if m_split_mode d
    then setbit paged (Z.shiftl 0x0200 size) (split_drive d offset)
    else paged.
Proof.
  intros Hmatch size paged. unfold cruwrite. rewrite Hmatch. fold size.
  pose proof (cru_bit_range offset) as Hbit.
  pose proof (cruwrite_switch_frame size (cru_bit offset) data d Hbit)
    as (Hsplit & Hti & Hpho & _).
  pose proof (cruwrite_switch_page size (cru_bit offset) data d Hbit) as Hpage.
  fold paged in Hpage.
  unfold cruwrite_split, split_drive. rewrite Hsplit, Hti, Hpho.
  destruct (m_split_mode d); [| exact Hpage].
  destruct (m_timode d); cbn [m_page set_m_page]; now rewrite Hpage.
Qed.

(** The same, bit by bit. *)
Lemma cruwrite_page_bits (d : horizon_ramdisk_device) (offset : offs_t) (data : uint8_t) (j : Z) :
  cru_match d offset = true -> 0 <= j ->
  let size := read_HORIZONSIZE (HORIZONSIZE (ioport d)) in
  Z.testbit (m_page (cruwrite offset data d)) j =
    if m_split_mode d && (j =? 9 + size) then split_drive d offset
    else match cru_page_pattern d size (cru_bit offset) with
         | Some pattern =>
             if Z.testbit pattern j then nonzero data else Z.testbit (m_page d) j
         | None => Z.testbit (m_page d) j
         end.
Proof.
  intros Hmatch Hj size.
  pose proof (read_HORIZONSIZE_range (HORIZONSIZE (ioport d))) as Hsize. fold size in Hsize.
  rewrite (cruwrite_page d offset data Hmatch). fold size.
  assert (Hpaged :
    Z.testbit match cru_page_pattern d size (cru_bit offset) with
              | Some pattern => setbit (m_page d) pattern (nonzero data)
              | None => m_page d
              end j =
    match cru_page_pattern d size (cru_bit offset) with
    | Some pattern =>
        if Z.testbit pattern j then nonzero data else Z.testbit (m_page d) j
    | None => Z.testbit (m_page d) j
    end).
  { destruct (cru_page_pattern d size (cru_bit offset)); [| reflexivity].
    now apply testbit_setbit. }
  destruct (m_split_mode d); cbn [andb]; [| exact Hpaged].
  rewrite testbit_setbit by assumption.
  rewrite shiftl_0x200, testbit_pow2 by lia.
  destruct (j =? 9 + size); [reflexivity | exact Hpaged].
Qed.

Lemma cruwrite_split_frame (size bit : Z) (offset : offs_t) (d : horizon_ramdisk_device) :
  m_selected (cruwrite_split size bit offset d) = m_selected d
  /\ m_rambo_mode (cruwrite_split size bit offset d) = m_rambo_mode d.
Proof.
  unfold cruwrite_split.
  destruct (m_split_mode d); [destruct (m_timode d) |]; split; reflexivity.
Qed.

Lemma write_page (in_dsr_space in_cart_space : offs_t -> bool -> bool)
    (offset : offs_t) (data : uint8_t) (d : horizon_ramdisk_device) :
  m_page (write in_dsr_space in_cart_space offset data d) = m_page d.
Proof.
  unfold write.
  destruct (ram32k_index d offset); [reflexivity |].
  destruct (m_hideswitch d); [reflexivity |].
  destruct (negb (m_selected d) && negb (m_rambo_mode d)); [reflexivity |].
  destruct (negb (m_rambo_mode d)).
  - destruct (in_dsr_space offset (m_genmod_fix d)); [| reflexivity].
    destruct (Z.land offset 0x1800 =? 0x1800); reflexivity.
  - destruct (in_dsr_space offset (m_genmod_fix d)),
      (in_cart_space offset (m_genmod_fix d)); reflexivity.
Qed.

Lemma readz_device (in_dsr_space in_cart_space : offs_t -> bool -> bool)
    (offset : offs_t) (value : uint8_t) (d : horizon_ramdisk_device) :
  snd (readz in_dsr_space in_cart_space offset value d) = d.
Proof.
  unfold readz.
  destruct (ram32k_index d offset); [reflexivity |].
  destruct (m_hideswitch d); [reflexivity |].
  destruct (negb (m_selected d) && negb (m_rambo_mode d)); [reflexivity |].
  destruct (negb (m_rambo_mode d)); [| reflexivity].
  destruct (in_dsr_space offset (m_genmod_fix d)); [| reflexivity].
  destruct (Z.land offset 0x1800 =? 0x1800); reflexivity.
Qed.

(** C3, as amended.  For a [cruwrite] whose offset matches the Horizon or
    the Phoenix CRU base: bit 0 sets [m_selected] to [data != 0]; bit 15
    sets [m_rambo_mode] to [data != 0] when RAMBO is configured and leaves it
    alone otherwise (it assigns the written value, it does not flip the
    mode); no other bit touches these two flags.  Every page bit other than
    the split page bit of split mode ends as the specification's table
    [cru_page_pattern] says: the bits of the pattern driven by the CRU bit
    take the value [data != 0], all others keep their value.  Memory
    accesses and [crureadz] leave the page register alone. *)
Theorem cruwrite_bit_effects :
  forall (d : horizon_ramdisk_device) (offset : offs_t) (data : uint8_t),
    cru_match d offset = true ->
    let size := read_HORIZONSIZE (HORIZONSIZE (ioport d)) in
    let bit := cru_bit offset in
    let d' := cruwrite offset data d in
    m_selected d' = (if bit =? 0 then nonzero data else m_selected d)
    /\ m_rambo_mode d' =
         (if (bit =? 15) && m_use_rambo d then nonzero data else m_rambo_mode d)
    /\ (forall j : Z,
          0 <= j -> m_split_mode d && (j =? 9 + size) = false ->
          Z.testbit (m_page d') j =
            match cru_page_pattern d size bit with
            | Some pattern =>
                if Z.testbit pattern j then nonzero data else Z.testbit (m_page d) j
            | None => Z.testbit (m_page d) j
            end)
    /\ (forall (in_dsr_space in_cart_space : offs_t -> bool -> bool)
               (o : offs_t) (v : uint8_t),
          m_page (write in_dsr_space in_cart_space o v d) = m_page d
          /\ m_page (snd (readz in_dsr_space in_cart_space o v d)) = m_page d
          /\ m_page (snd (crureadz o v d)) = m_page d).
Proof.
  intros d offset data Hmatch size bit d'.
  pose proof (cru_bit_range offset) as Hbit. fold bit in Hbit.
  pose proof (cruwrite_switch_frame size bit data d Hbit)
    as (_ & _ & _ & _ & _ & _ & Hsel & Hrambo).
  pose proof (cruwrite_split_frame size bit offset (cruwrite_switch size bit data d))
    as (Hsel' & Hrambo').
  assert (Hd' : d' = cruwrite_split size bit offset (cruwrite_switch size bit data d)).
  { subst d'. unfold cruwrite. now rewrite Hmatch. }
  repeat split.
  - now rewrite Hd', Hsel'.
  - now rewrite Hd', Hrambo'.
  - intros j Hj Hnot. subst d'.
    rewrite (cruwrite_page_bits d offset data j Hmatch Hj).
    fold size bit. now rewrite Hnot.
  - apply write_page.
  - now rewrite readz_device.
Qed.

(** C4.  Split/dual-drive selection.  The split page bit [0x0200 << size] is
    page bit number [9 + size].  After a [cruwrite] whose offset matches the
    Horizon or the Phoenix CRU base it is, with split mode on, set exactly
    when the access came through the Phoenix CRU base (TI mode) or when the
    CRU bit number is above 7 (Geneve mode).  With split mode off the
    selection does not write it: it keeps its value, unless the write went
    to the ordinary paging line of that bit, CRU bit [size + 10], which
    gives it the value [data != 0]. *)
Theorem cruwrite_split_select :
  forall (d : horizon_ramdisk_device) (offset : offs_t) (data : uint8_t),
    cru_match d offset = true ->
    let size := read_HORIZONSIZE (HORIZONSIZE (ioport d)) in
    let bit := cru_bit offset in
    Z.shiftl 0x0200 size = 2 ^ (9 + size)
    /\ Z.testbit (m_page (cruwrite offset data d)) (9 + size) =
         (if m_split_mode d then
            if m_timode d then Z.land offset 0xff00 =? m_cru_phoenix d
            else 7 <? bit
          else if bit =? size + 10 then nonzero data
          else Z.testbit (m_page d) (9 + size))
    /\ (m_split_mode d = false ->
        cruwrite offset data d = cruwrite_switch size bit data d).
Proof.
  intros d offset data Hmatch size bit.
  pose proof (read_HORIZONSIZE_range (HORIZONSIZE (ioport d))) as Hsize.
  fold size in Hsize.
  split; [apply shiftl_0x200; lia | split].
  - rewrite (cruwrite_page_bits d offset data (9 + size) Hmatch) by lia.
    fold size bit. rewrite Z.eqb_refl, andb_true_r.
    destruct (m_split_mode d) eqn:Hsplit; [reflexivity |].
    pose proof (cru_page_pattern_split_line d size bit Hsize Hsplit) as Hline.
    destruct (cru_page_pattern d size bit) as [pattern |].
    + rewrite Hline. reflexivity.
    + rewrite <- Hline. reflexivity.
  - intros Hsplit. unfold cruwrite. rewrite Hmatch. fold size bit.
    pose proof (cru_bit_range offset) as Hbit. fold bit in Hbit.
    pose proof (cruwrite_switch_frame size bit data d Hbit) as (Hsplit' & _).
    unfold cruwrite_split. now rewrite Hsplit', Hsplit.
Qed.

(** ** The page register bound *)

Lemma cruwrite_page_range (offset : offs_t) (data : uint8_t) (d : horizon_ramdisk_device) :
  0 <= m_page d < 2 ^ 13 -> 0 <= m_page (cruwrite offset data d) < 2 ^ 13.
Proof.
  intros Hpage.
  destruct (cru_match d offset) eqn:Hmatch.
  - rewrite (cruwrite_page d offset data Hmatch).
    pose proof (read_HORIZONSIZE_range (HORIZONSIZE (ioport d))) as Hsize.
    set (size := read_HORIZONSIZE (HORIZONSIZE (ioport d))) in *.
    assert (Hpaged :
      0 <= match cru_page_pattern d size (cru_bit offset) with
           | Some pattern => setbit (m_page d) pattern (nonzero data)
           | None => m_page d
           end < 2 ^ 13).
    { destruct (cru_page_pattern d size (cru_bit offset)) as [pattern |] eqn:Hpat;
        [| assumption].
      apply setbit_range; [lia | assumption |].
      now apply cru_page_pattern_range in Hpat. }
    destruct (m_split_mode d); [| assumption].
    apply setbit_range; [lia | assumption |].
    rewrite shiftl_0x200 by lia. split.
    + apply Z.pow_nonneg. lia.
    + apply Z.pow_lt_mono_r; lia.
  - unfold cruwrite. now rewrite Hmatch.
Qed.

Lemma cruwrites_page_range (calls : list (offs_t * uint8_t)) :
  forall d : horizon_ramdisk_device,
    0 <= m_page d < 2 ^ 13 -> 0 <= m_page (cruwrites calls d) < 2 ^ 13.
Proof.
  unfold cruwrites. induction calls as [| [offset data] calls IH]; intros d Hpage.
  - exact Hpage.
  - cbn [fold_left fst snd]. apply IH. now apply cruwrite_page_range.
Qed.

Lemma horizon_index_range (page : Z) (offset : offs_t) :
  0 <= page < 2 ^ 13 -> 0 <= horizon_index page offset < MAXSIZE.
Proof.
  intros Hpage. unfold horizon_index. change MAXSIZE with (2 ^ 24).
  apply lor_range; [lia | |].
  - rewrite Z.shiftl_mul_pow2 by lia.
    change (2 ^ 13) with 8192 in Hpage. change (2 ^ 11) with 2048.
    change (2 ^ 24) with 16777216. lia.
  - rewrite Z.land_comm. apply land_range; [lia |].
    change (2 ^ 24) with 16777216. lia.
Qed.

Lemma rambo_index_range (page : Z) (offset : offs_t) :
  0 <= page < 2 ^ 13 -> 0 <= rambo_index page offset < MAXSIZE.
Proof.
  intros Hpage. unfold rambo_index. change MAXSIZE with (2 ^ 24).
  apply lor_range; [lia | |].
  - pose proof (land_range page 0xfffc 13 ltac:(lia) Hpage) as Hmasked.
    rewrite Z.shiftl_mul_pow2 by lia.
    change (2 ^ 13) with 8192 in Hmasked. change (2 ^ 11) with 2048.
    change (2 ^ 24) with 16777216. lia.
  - rewrite Z.land_comm. apply land_range; [lia |].
    change (2 ^ 24) with 16777216. lia.
Qed.

(** C8.  Page register bound: after [device_reset], which clears [m_page],
    any sequence of [cruwrite] calls leaves [0 <= m_page < 0x2000]; hence
    for every offset the NVRAM index [(m_page << 11) | (offset & 0x07ff)] of
    Horizon mode and the NVRAM index
    [((m_page & 0xfffc) << 11) | (offset & 0x1fff)] of RAMBO mode lie inside
    the 16 MiB NVRAM region. *)
Theorem page_register_bound :
  forall (d : horizon_ramdisk_device) (calls : list (offs_t * uint8_t))
         (offset : offs_t),
    let d' := cruwrites calls (device_reset d) in
    m_page (device_reset d) = 0
    /\ 0 <= m_page d' < 0x2000
    /\ 0 <= Z.lor (Z.shiftl (m_page d') 11) (Z.land offset 0x07ff) < MAXSIZE
    /\ 0 <= Z.lor (Z.shiftl (Z.land (m_page d') 0xfffc) 11) (Z.land offset 0x1fff)
       < MAXSIZE.
Proof.
  intros d calls offset d'.
  assert (Hpage : 0 <= m_page d' < 2 ^ 13).
  { apply cruwrites_page_range. cbn. lia. }
  split; [reflexivity | split; [exact Hpage | split]].
  - now apply horizon_index_range.
  - now apply rambo_index_range.
Qed.

(** ** NVRAM files *)

Lemma file_write_length (buffer : mem) (length : Z) :
  List.length (file_write buffer length) = Z.to_nat length.
Proof. unfold file_write. now rewrite length_map, length_seq. Qed.

Lemma file_write_nth (buffer : mem) (length : Z) (k : nat) :
  nth k (file_write buffer length) 0 =
    if Z.of_nat k <? length then buffer (Z.of_nat k) else 0.
Proof.
  destruct (Z.ltb_spec (Z.of_nat k) length) as [Hin | Hout].
  - unfold file_write.
    rewrite (nth_indep _ 0 (buffer (Z.of_nat 0)))
      by (rewrite length_map, length_seq; lia).
    pose proof (map_nth (fun k => buffer (Z.of_nat k))
                  (seq 0 (Z.to_nat length)) 0%nat k) as Hmap.
    cbv beta in Hmap. rewrite seq_nth in Hmap by lia. exact Hmap.
  - apply nth_overflow. rewrite file_write_length. lia.
Qed.

Lemma configured_size_pow2 (d : horizon_ramdisk_device) :
  configured_size d = 2097152 * 2 ^ read_HORIZONSIZE (HORIZONSIZE (ioport d)).
Proof.
  unfold configured_size. rewrite Z.shiftl_1_l. reflexivity.
Qed.

Lemma configured_size_range (d : horizon_ramdisk_device) :
  2097152 <= configured_size d <= MAXSIZE.
Proof.
  unfold configured_size, MAXSIZE.
  destruct (HORIZONSIZE (ioport d)); cbn; lia.
Qed.

(** The bytes of the file written by [nvram_write]. *)
Lemma nvram_write_nth (d : horizon_ramdisk_device) (k : nat) :
  nth k (nvram_write d) 0 =
    if Z.of_nat k <? configured_size d then m_nvram d (Z.of_nat k)
    else if Z.of_nat k <? configured_size d + ROSSIZE
         then m_ros d (Z.of_nat k - configured_size d)
         else 0.
Proof.
  pose proof (configured_size_range d) as Hsize.
  unfold nvram_write. rewrite file_write_nth.
  unfold memcpy, alloc_clear, ROSSIZE.
  set (size := configured_size d) in *. set (i := Z.of_nat k).
  assert (Hi : 0 <= i) by (subst i; lia).
  destruct (Z.ltb_spec i (size + 8192)), (Z.ltb_spec i size),
    (Z.leb_spec size i), (Z.ltb_spec i (0 + size)), (Z.leb_spec 0 i);
    cbn [andb]; try lia; try reflexivity; f_equal; lia.
Qed.

(** The two regions after [nvram_read], byte by byte.  [read] is the number
    of bytes that [file.read] delivers. *)
Lemma nvram_read_nvram (file : emu_file) (d : horizon_ramdisk_device) (i : Z) :
  let read := Z.min (Z.of_nat (List.length file)) (MAXSIZE + ROSSIZE) in
  m_nvram (nvram_read file d) i =
    if (0 <=? i) && (i <? read - ROSSIZE) then nth (Z.to_nat i) file 0
    else if (0 <=? i) && (i <? configured_size d) then 0
    else m_nvram d i.
Proof.
  intros read.
  unfold nvram_read, file_read, memcpy, memset, alloc_clear, ROSSIZE in *.
  fold read.
  destruct (Z.leb_spec 0 (read - 8192)) as [Hlong | Hshort];
    cbn [m_nvram m_ros set_m_nvram set_m_ros].
  - replace (0 + (i - 0)) with i by lia.
    destruct (Z.leb_spec 0 i), (Z.ltb_spec i (0 + (read - 8192))),
      (Z.ltb_spec i (read - 8192)), (Z.ltb_spec i read);
      cbn [andb]; try lia; reflexivity.
  - destruct (Z.leb_spec 0 i), (Z.ltb_spec i (read - 8192));
      cbn [andb]; try lia; reflexivity.
Qed.

Lemma nvram_read_ros (file : emu_file) (d : horizon_ramdisk_device) (i : Z) :
  let read := Z.min (Z.of_nat (List.length file)) (MAXSIZE + ROSSIZE) in
  m_ros (nvram_read file d) i =
    if (0 <=? i) && (i <? ROSSIZE)
    then if ROSSIZE <=? read then nth (Z.to_nat (read - ROSSIZE + i)) file 0 else 0
    else m_ros d i.
Proof.
  intros read.
  unfold nvram_read, file_read, memcpy, memset, alloc_clear, ROSSIZE in *.
  fold read.
  destruct (Z.leb_spec 0 (read - 8192)) as [Hlong | Hshort];
    cbn [m_nvram m_ros set_m_nvram set_m_ros].
  - replace (read - 8192 + (i - 0)) with (read - 8192 + i) by lia.
    destruct (Z.leb_spec 0 i), (Z.ltb_spec i (0 + 8192)),
      (Z.ltb_spec i 8192), (Z.leb_spec 8192 read),
      (Z.leb_spec 0 (read - 8192 + i)), (Z.ltb_spec (read - 8192 + i) read);
      cbn [andb]; try lia; reflexivity.
  - destruct (Z.leb_spec 0 i), (Z.ltb_spec i 8192), (Z.leb_spec 8192 read);
      cbn [andb]; try lia; reflexivity.
Qed.

Lemma nvram_write_length (d : horizon_ramdisk_device) :
  Z.of_nat (List.length (nvram_write d)) = configured_size d + ROSSIZE.
Proof.
  pose proof (configured_size_range d) as Hsize.
  unfold nvram_write. rewrite file_write_length. unfold ROSSIZE. lia.
Qed.

(** C5.  NVRAM persistence round-trips: the file written by [nvram_write],
    read back by [nvram_read] into any card with the same size setting,
    restores each of the first [2 MiB * 2^size] bytes of NVRAM and each of
    the 8192 bytes of ROS to its value at the time of writing. *)
Theorem nvram_write_read_roundtrip :
  forall (d d0 : horizon_ramdisk_device) (i j : Z),
    HORIZONSIZE (ioport d0) = HORIZONSIZE (ioport d) ->
    0 <= i < 2097152 * 2 ^ read_HORIZONSIZE (HORIZONSIZE (ioport d)) ->
    0 <= j < 8192 ->
    m_nvram (nvram_read (nvram_write d) d0) i = m_nvram d i
    /\ m_ros (nvram_read (nvram_write d) d0) j = m_ros d j.
Proof.
  intros d d0 i j Hsame Hi Hj.
  rewrite <- configured_size_pow2 in Hi.
  pose proof (configured_size_range d) as Hsize.
  pose proof (nvram_write_length d) as Hlen.
  unfold MAXSIZE, ROSSIZE in *.
  split.
  - rewrite nvram_read_nvram. rewrite Hlen. unfold MAXSIZE, ROSSIZE.
    rewrite Z.min_l by lia.
    destruct (Z.leb_spec 0 i), (Z.ltb_spec i (configured_size d + 8192 - 8192));
      cbn [andb]; try lia.
    rewrite nvram_write_nth, Z2Nat.id by lia.
    destruct (Z.ltb_spec i (configured_size d)); [reflexivity | lia].
  - rewrite nvram_read_ros. rewrite Hlen. unfold MAXSIZE, ROSSIZE.
    rewrite Z.min_l by lia.
    destruct (Z.leb_spec 0 j), (Z.ltb_spec j 8192),
      (Z.leb_spec 8192 (configured_size d + 8192)); cbn [andb]; try lia.
    rewrite nvram_write_nth, Z2Nat.id by lia. unfold ROSSIZE.
    destruct (Z.ltb_spec (configured_size d + 8192 - 8192 + j) (configured_size d)),
      (Z.ltb_spec (configured_size d + 8192 - 8192 + j) (configured_size d + 8192));
      try lia.
    f_equal. lia.
Qed.

(** C6, as amended.  Serialized layout.  [nvram_write] produces exactly
    [2 MiB * 2^size + 8192] bytes: the first [2 MiB * 2^size] bytes of NVRAM
    followed by the 8192 bytes of ROS.  [nvram_read] takes at most the first
    [MAXSIZE + ROSSIZE] bytes of the file; of these [read] bytes the last
    8192 become ROS and those before them become the start of NVRAM; the
    rest of the first [2 MiB * 2^size] bytes of NVRAM is zero; with fewer
    than 8192 bytes nothing is copied and the first [2 MiB * 2^size] bytes of
    NVRAM and all of ROS are zero.  NVRAM bytes past both the data and the
    configured size keep their value. *)
Theorem nvram_layout :
  forall (d : horizon_ramdisk_device) (file : emu_file) (k : nat) (i : Z),
    let size := 2097152 * 2 ^ read_HORIZONSIZE (HORIZONSIZE (ioport d)) in
    let read := Z.min (Z.of_nat (List.length file)) (MAXSIZE + ROSSIZE) in
    Z.of_nat (List.length (nvram_write d)) = size + 8192
    /\ nth k (nvram_write d) 0 =
         (if Z.of_nat k <? size then m_nvram d (Z.of_nat k)
          else if Z.of_nat k <? size + 8192 then m_ros d (Z.of_nat k - size)
          else 0)
    /\ m_nvram (nvram_read file d) i =
         (if (0 <=? i) && (i <? read - 8192) then nth (Z.to_nat i) file 0
          else if (0 <=? i) && (i <? size) then 0
          else m_nvram d i)
    /\ m_ros (nvram_read file d) i =
         (if (0 <=? i) && (i <? 8192)
          then if 8192 <=? read then nth (Z.to_nat (read - 8192 + i)) file 0 else 0
          else m_ros d i).
Proof.
  intros d file k i size read. subst size.
  rewrite <- configured_size_pow2.
  repeat split.
  - apply nvram_write_length.
  - apply nvram_write_nth.
  - apply nvram_read_nvram.
  - apply nvram_read_ros.
Qed.

(** C6 as stated fails in two places.  A file longer than the buffer of
    [nvram_read] is cut at [MAXSIZE + ROSSIZE] bytes, so its last 8192 bytes
    are not what ends up in ROS: for [oversize_file] the last byte is 1 and
    the last ROS byte is 0.  And only the configured part of NVRAM is
    zero-filled: with the 2 MiB setting and an empty file, NVRAM byte
    2097153 of the 16 MiB region keeps its value 1. *)
Lemma nvram_layout_as_stated_fails :
  (last oversize_file 0 = 1
   /\ m_ros (nvram_read oversize_file (sample_card default_ports)) (ROSSIZE - 1) = 0)
  /\ (Z.of_nat (List.length (@nil uint8_t)) < 8192
      /\ 2097153 < MAXSIZE
      /\ m_nvram (nvram_read [] (sample_card default_ports)) 2097153 = 1).
Proof.
  split; [split | split; [| split]].
  - unfold oversize_file. apply last_last.
  - rewrite nvram_read_ros.
    assert (Hlen : Z.of_nat (List.length oversize_file) = MAXSIZE + ROSSIZE + 1).
    { unfold oversize_file. rewrite length_app, repeat_length.
      unfold MAXSIZE, ROSSIZE. cbn [List.length]. lia. }
    rewrite Hlen. unfold MAXSIZE, ROSSIZE.
    rewrite Z.min_r by lia.
    change ((0 <=? 8192 - 1) && (8192 - 1 <? 8192)) with true.
    change (8192 <=? 16777216 + 8192) with true. cbv iota.
    unfold oversize_file, MAXSIZE, ROSSIZE.
    rewrite app_nth1 by (rewrite repeat_length; lia).
    apply nth_repeat.
  - cbn. lia.
  - unfold MAXSIZE. lia.
  - rewrite nvram_read_nvram. reflexivity.
Qed.

(** ** The QVT-103 skeleton *)

(** C7.  The terminal driver renders nothing: for every screen, bitmap and
    clip rectangle, [screen_update] returns 0 and hands back the driver
    state, the screen and the bitmap as it received them. *)
Theorem screen_update_renders_nothing :
  forall (qvt103_state screen_device bitmap_rgb32 rectangle : Type)
         (this : qvt103_state) (screen : screen_device)
         (bitmap : bitmap_rgb32) (cliprect : rectangle),
    fst (screen_update qvt103_state screen_device bitmap_rgb32 rectangle
           this screen bitmap cliprect) = 0
    /\ snd (screen_update qvt103_state screen_device bitmap_rgb32 rectangle
              this screen bitmap cliprect) = (this, screen, bitmap).
Proof. intros. split; reflexivity. Qed.

(** ** The statements at concrete cards *)

(** C3 as stated fails at bit 15: on a card already in RAMBO mode, with
    RAMBO configured, writing 1 to CRU bit 15 leaves the mode on; the write
    assigns [data != 0] and does not flip the flag. *)
Lemma cruwrite_bit15_assigns :
  cru_match rambo_card 0x121e = true
  /\ cru_bit 0x121e = 15
  /\ m_use_rambo rambo_card = true
  /\ m_rambo_mode rambo_card = true
  /\ m_rambo_mode (cruwrite 0x121e 1 rambo_card) <> negb (m_rambo_mode rambo_card).
Proof.
  repeat split; try reflexivity. cbn. discriminate.
Qed.

Lemma horizon_page_mode_access_witness :
  m_rambo_mode selected_card = false
  /\ dsr_4000 0x5803 (m_genmod_fix selected_card) = true
  /\ m_selected selected_card = true
  /\ m_hideswitch selected_card = false
  /\ ram32k_index selected_card 0x5803 = None
  /\ readz dsr_4000 cart_6000 0x5803 0 selected_card
     = (m_nvram selected_card 3, selected_card)
  /\ m_nvram (write dsr_4000 cart_6000 0x5803 0xaa selected_card) 3 = 0xaa
  /\ m_nvram (write dsr_4000 cart_6000 0x5803 0xaa selected_card) 4
     = m_nvram selected_card 4
  /\ m_ros (write dsr_4000 cart_6000 0x4010 0xaa selected_card) 0x10 = 0xaa
  /\ m_nvram (write dsr_4000 cart_6000 0x4010 0xaa selected_card) 0x10
     = m_nvram selected_card 0x10.
Proof.
  do 5 (split; [reflexivity |]).
  destruct (horizon_page_mode_access dsr_4000 cart_6000 selected_card
              0x5803 0 0xaa 3 eq_refl eq_refl eq_refl eq_refl eq_refl)
    as (Hread & Hstored & _).
  destruct (horizon_page_mode_access dsr_4000 cart_6000 selected_card
              0x5803 0 0xaa 4 eq_refl eq_refl eq_refl eq_refl eq_refl)
    as (_ & Hkept & _).
  destruct (horizon_page_mode_access dsr_4000 cart_6000 selected_card
              0x4010 0 0xaa 0x10 eq_refl eq_refl eq_refl eq_refl eq_refl)
    as (_ & Hnvram & Hros & _).
  split; [exact Hread | split; [exact Hstored | split; [exact Hkept |]]].
  split; [exact Hros | exact Hnvram].
Defined.

Lemma rambo_block_mode_access_witness :
  m_rambo_mode rambo_card = true
  /\ m_selected rambo_card = false
  /\ m_hideswitch rambo_card = false
  /\ ram32k_index rambo_card 0x6005 = None
  /\ readz dsr_4000 cart_6000 0x6005 0 rambo_card = (m_nvram rambo_card 8197, rambo_card)
  /\ readz dsr_4000 cart_6000 0x4005 0 rambo_card = (m_ros rambo_card 5, rambo_card)
  /\ m_nvram (write dsr_4000 cart_6000 0x6005 0xaa rambo_card) 8197 = 0xaa
  /\ m_ros (write dsr_4000 cart_6000 0x6005 0xaa rambo_card) 8197
     = m_ros rambo_card 8197
  /\ m_ros (write dsr_4000 cart_6000 0x4005 0xaa rambo_card) 5 = 0xaa.
Proof.
  do 4 (split; [reflexivity |]).
  destruct (rambo_block_mode_access dsr_4000 cart_6000 rambo_card 0x6005 0 0xaa
              8197 eq_refl eq_refl eq_refl) as (Hread & Hros & Hnvram & _).
  destruct (rambo_block_mode_access dsr_4000 cart_6000 rambo_card 0x4005 0 0xaa
              5 eq_refl eq_refl eq_refl) as (Hread' & Hros' & _).
  split; [exact Hread | split; [exact Hread' | split; [exact Hnvram |]]].
  split; [exact Hros | exact Hros'].
Defined.

Lemma cruwrite_bit_effects_witness :
  cru_match (sample_card default_ports) 0x1206 = true
  /\ 0 <= 2
  /\ m_selected (cruwrite 0x1200 1 (sample_card default_ports)) = true
  /\ Z.testbit (m_page (cruwrite 0x1206 1 (sample_card default_ports))) 2 = true
  /\ m_rambo_mode (cruwrite 0x121e 1 (sample_card default_ports)) = true.
Proof.
  split; [reflexivity | split; [lia |]].
  destruct (cruwrite_bit_effects (sample_card default_ports) 0x1200 1 eq_refl)
    as (Hsel & _).
  destruct (cruwrite_bit_effects (sample_card default_ports) 0x1206 1 eq_refl)
    as (_ & _ & Hbits & _).
  destruct (cruwrite_bit_effects (sample_card default_ports) 0x121e 1 eq_refl)
    as (_ & Hrambo & _).
  split; [exact Hsel | split; [| exact Hrambo]].
  exact (Hbits 2 ltac:(lia) eq_refl).
Defined.

Lemma cruwrite_split_select_witness :
  cru_match expansion_card 0x1400 = true
  /\ cru_match expansion_card 0x1200 = true
  /\ m_split_mode expansion_card = true
  /\ m_timode expansion_card = true
  /\ Z.testbit (m_page (cruwrite 0x1400 1 expansion_card)) 10 = true
  /\ Z.testbit (m_page (cruwrite 0x1200 1 expansion_card)) 10 = false
  /\ m_split_mode (sample_card default_ports) = false
  /\ cruwrite 0x1206 1 (sample_card default_ports)
     = cruwrite_switch 0 3 1 (sample_card default_ports).
Proof.
  do 4 (split; [reflexivity |]).
  destruct (cruwrite_split_select expansion_card 0x1400 1 eq_refl) as (_ & Hphoenix & _).
  destruct (cruwrite_split_select expansion_card 0x1200 1 eq_refl) as (_ & Hhorizon & _).
  destruct (cruwrite_split_select (sample_card default_ports) 0x1206 1 eq_refl)
    as (_ & _ & Hoff).
  split; [exact Hphoenix | split; [exact Hhorizon | split; [reflexivity |]]].
  exact (Hoff eq_refl).
Defined.

Lemma nvram_write_read_roundtrip_witness :
  HORIZONSIZE (ioport selected_card) = HORIZONSIZE (ioport (sample_card default_ports))
  /\ 0 <= 5 < 2097152 * 2 ^ read_HORIZONSIZE (HORIZONSIZE (ioport (sample_card default_ports)))
  /\ 0 <= 7 < 8192
  /\ m_nvram (nvram_read (nvram_write (sample_card default_ports)) selected_card) 5
     = m_nvram (sample_card default_ports) 5
  /\ m_ros (nvram_read (nvram_write (sample_card default_ports)) selected_card) 7
     = m_ros (sample_card default_ports) 7.
Proof.
  assert (H5 : 0 <= 5 < 2097152 * 2 ^ read_HORIZONSIZE
                                    (HORIZONSIZE (ioport (sample_card default_ports))))
    by (cbn; lia).
  assert (H7 : 0 <= 7 < 8192) by lia.
  split; [reflexivity | split; [exact H5 | split; [exact H7 |]]].
  exact (nvram_write_read_roundtrip (sample_card default_ports) selected_card 5 7
           eq_refl H5 H7).
Defined.

Lemma ram32k_bypass_witness :
  m_32k_installed expansion_card = true
  /\ m_hideswitch expansion_card = true
  /\ 0xa000 <= Z.land 0xa123 0xffff <= 0xffff
  /\ readz dsr_4000 cart_6000 0xa123 0 expansion_card
     = (m_ram expansion_card 0x2123, expansion_card)
  /\ m_ram (write dsr_4000 cart_6000 0xa123 0xaa expansion_card) 0x2123 = 0xaa
  /\ m_ram (write dsr_4000 cart_6000 0xa123 0xaa expansion_card) 0x2124
     = m_ram expansion_card 0x2124.
Proof.
  assert (Hwin : 0xa000 <= Z.land 0xa123 0xffff <= 0xffff) by (cbn; lia).
  split; [reflexivity | split; [reflexivity | split; [exact Hwin |]]].
  destruct (ram32k_bypass dsr_4000 cart_6000 expansion_card 0xa123 0 0xaa 0x2123
              eq_refl (or_intror Hwin)) as (_ & Hread & Hstored & _).
  destruct (ram32k_bypass dsr_4000 cart_6000 expansion_card 0xa123 0 0xaa 0x2124
              eq_refl (or_intror Hwin)) as (_ & _ & Hkept & _).
  split; [exact Hread | split; [exact Hstored | exact Hkept]].
Defined.

Lemma crureadz_readz_pure_witness :
  m_hideswitch expansion_card = true
  /\ ram32k_index expansion_card 0x4000 = None
  /\ fst (readz dsr_4000 cart_6000 0x4000 0x77 expansion_card) = 0x77.
Proof.
  split; [reflexivity | split; [reflexivity |]].
  destruct (crureadz_readz_pure dsr_4000 cart_6000 expansion_card 0x4000 0x77)
    as (_ & _ & Hhidden).
  exact (Hhidden eq_refl eq_refl).
Defined.

(** * Further properties of the card *)

(** ** Bus accesses as a whole *)

Section BusComposition.

Variable in_dsr_space : offs_t -> bool -> bool.
Variable in_cart_space : offs_t -> bool -> bool.

Lemma upd_same (p : mem) (i : Z) (v : uint8_t) : upd p i v i = v.
Proof. unfold upd. now rewrite Z.eqb_refl. Qed.

Lemma upd_other (p : mem) (i j : Z) (v : uint8_t) : j <> i -> upd p i v j = p j.
Proof. intros Hne. unfold upd. destruct (Z.eqb_spec j i); [contradiction | reflexivity]. Qed.

Lemma write_registers (d : horizon_ramdisk_device) (offset : offs_t) (data : uint8_t) :
  registers (write in_dsr_space in_cart_space offset data d) = registers d.
Proof.
  unfold write.
  destruct (ram32k_index d offset); [reflexivity |].
  destruct (m_hideswitch d); [reflexivity |].
  destruct (negb (m_selected d) && negb (m_rambo_mode d)); [reflexivity |].
  destruct (negb (m_rambo_mode d)).
  - destruct (in_dsr_space offset (m_genmod_fix d)); [| reflexivity].
    destruct (Z.land offset 0x1800 =? 0x1800); reflexivity.
  - destruct (in_dsr_space offset (m_genmod_fix d)),
      (in_cart_space offset (m_genmod_fix d)); reflexivity.
Qed.

(** X1.  A [write] never changes a register of the card: page, CRU bases,
    mode flags, hideswitch, selection and port settings are as before,
    whatever the offset and the data. *)
Theorem write_keeps_registers :
  forall (d : horizon_ramdisk_device) (offset : offs_t) (data : uint8_t),
    registers (write in_dsr_space in_cart_space offset data d) = registers d.
Proof. exact write_registers. Qed.

(** X2.  Read after write: whenever the access at an offset is decoded, a
    [readz] at the offset that was just written returns the written byte.
    This covers the 32K windows, the ROS and NVRAM windows of Horizon mode
    and both windows of RAMBO mode. *)
Theorem read_after_write :
  forall (d : horizon_ramdisk_device) (offset : offs_t) (value data : uint8_t),
    access_decoded in_dsr_space in_cart_space d offset = true ->
    fst (readz in_dsr_space in_cart_space offset value
           (write in_dsr_space in_cart_space offset data d)) = data.
Proof.
  intros d offset value data.
  unfold access_decoded, readz, write, ram32k_index.
  destruct d as [ram nvram ros page ch cp ti inst split rambo hide use gen sel io].
  cbn [m_32k_installed m_hideswitch m_selected m_rambo_mode m_genmod_fix].
  generalize (ram32k_window offset) as w. intros w.
  destruct inst, w as [i |]; cbn -[Z.land Z.eqb horizon_index rambo_index];
    try (intros _; apply upd_same).
  all: destruct hide, rambo, sel,
         (in_dsr_space offset gen) eqn:Hdsr,
         (in_cart_space offset gen) eqn:Hcart;
       cbn -[Z.land Z.eqb horizon_index rambo_index];
       try discriminate; intros _;
       try (destruct (Z.land offset 0x1800 =? 0x1800) eqn:Hwin);
       cbn -[Z.land Z.eqb horizon_index rambo_index];
       rewrite ?Hdsr, ?Hcart, ?Hwin;
       cbn -[Z.land Z.eqb horizon_index rambo_index];
       apply upd_same.
Qed.

(** X3.  An access that is not decoded is void: [write] leaves the whole
    card as it is, and [readz] hands back [*value] untouched. *)
Theorem undecoded_access_is_void :
  forall (d : horizon_ramdisk_device) (offset : offs_t) (value data : uint8_t),
    access_decoded in_dsr_space in_cart_space d offset = false ->
    write in_dsr_space in_cart_space offset data d = d
    /\ readz in_dsr_space in_cart_space offset value d = (value, d).
Proof.
  intros d offset value data.
  unfold access_decoded, readz, write, ram32k_index.
  destruct d as [ram nvram ros page ch cp ti inst split rambo hide use gen sel io].
  cbn [m_32k_installed m_hideswitch m_selected m_rambo_mode m_genmod_fix].
  generalize (ram32k_window offset) as w. intros w.
  destruct inst, w as [i |]; try discriminate.
  all: destruct hide, rambo, sel, (in_dsr_space offset gen),
         (in_cart_space offset gen); cbn; try discriminate;
       intros _; split; reflexivity.
Qed.

End BusComposition.

(** ** How the two addressing regimes share NVRAM *)

Lemma testbit_ones (n m : Z) :
  0 <= n -> 0 <= m -> Z.testbit (Z.ones n) m = (m <? n).
Proof.
  intros Hn Hm. destruct (Z.ltb_spec m n).
  - apply Z.ones_spec_low. lia.
  - apply Z.ones_spec_high. lia.
Qed.

Lemma testbit_0xfffc (k : Z) :
  0 <= k -> Z.testbit 0xfffc k = (2 <=? k) && (k <? 16).
Proof.
  intros Hk. change 0xfffc with (Z.shiftl (Z.ones 14) 2).
  destruct (Z.leb_spec 2 k); cbn [andb].
  - rewrite Z.shiftl_spec, testbit_ones by lia.
    destruct (Z.ltb_spec (k - 2) 14), (Z.ltb_spec k 16); try reflexivity; lia.
  - apply Z.shiftl_spec_low. lia.
Qed.

Lemma horizon_index_sum (page : Z) (offset : offs_t) :
  horizon_index page offset = offset mod 2048 + page * 2048.
Proof.
  unfold horizon_index. change 0x07ff with (Z.ones 11).
  rewrite land_low_ones by lia.
  rewrite Z.lor_comm, lor_disjoint_add.
  - reflexivity.
  - lia.
  - apply Z.mod_pos_bound. reflexivity.
Qed.

Lemma rambo_index_as_horizon :
  forall (page : Z) (offset : offs_t),
    rambo_index page offset =
      horizon_index
        (Z.lor (Z.land page 0xfffc) (Z.land (Z.shiftr offset 11) 3)) offset.
Proof.
  intros page offset. unfold rambo_index, horizon_index.
  apply Z.bits_inj'. intros m Hm.
  rewrite !Z.lor_spec, !Z.land_spec.
  change 0x1fff with (Z.ones 13). change 0x07ff with (Z.ones 11).
  rewrite !testbit_ones by lia.
  destruct (Z.lt_ge_cases m 11) as [Hlow | Hhigh].
  - rewrite !Z.shiftl_spec_low by assumption.
    destruct (Z.ltb_spec m 13), (Z.ltb_spec m 11); try lia. reflexivity.
  - rewrite !Z.shiftl_spec by assumption.
    rewrite Z.lor_spec, !Z.land_spec, Z.shiftr_spec by lia.
    replace (m - 11 + 11) with m by lia.
    change 3 with (Z.ones 2).
    rewrite testbit_ones, testbit_0xfffc by lia.
    destruct (Z.testbit page (m - 11)), (Z.testbit offset m),
      (Z.leb_spec 2 (m - 11)), (Z.ltb_spec (m - 11) 16),
      (Z.ltb_spec (m - 11) 2), (Z.ltb_spec m 13), (Z.ltb_spec m 11);
      try lia; reflexivity.
Qed.

(** X4.  A RAMBO block is four consecutive Horizon pages: the NVRAM byte
    that RAMBO mode shows at an offset is the byte that Horizon mode shows,
    at the same offset within the 2 KiB page window, when the two low page
    bits are replaced by bits 11 and 12 of the offset. *)
Theorem rambo_block_is_four_pages :
  forall (page : Z) (offset : offs_t),
    rambo_index page offset =
      horizon_index
        (Z.lor (Z.land page 0xfffc) (Z.land (Z.shiftr offset 11) 3)) offset.
Proof. exact rambo_index_as_horizon. Qed.

Lemma horizon_index_inj :
  forall (page page' : Z) (offset offset' : offs_t),
    horizon_index page offset = horizon_index page' offset' <->
    page = page' /\ Z.land offset 0x07ff = Z.land offset' 0x07ff.
Proof.
  intros page page' offset offset'.
  rewrite !horizon_index_sum.
  change 0x07ff with (Z.ones 11). rewrite !land_low_ones by lia.
  change (2 ^ 11) with 2048.
  pose proof (Z.mod_pos_bound offset 2048 eq_refl).
  pose proof (Z.mod_pos_bound offset' 2048 eq_refl).
  split; [intros Heq; split; lia | intros [-> ->]; reflexivity].
Qed.

(** X5.  Horizon pages do not overlap: two accesses address the same NVRAM
    byte only if they use the same page and the same offset within the
    2 KiB window. *)
Theorem horizon_pages_disjoint :
  forall (page page' : Z) (offset offset' : offs_t),
    horizon_index page offset = horizon_index page' offset' <->
    page = page' /\ Z.land offset 0x07ff = Z.land offset' 0x07ff.
Proof. exact horizon_index_inj. Qed.

Section PageIsolation.

Variable in_dsr_space : offs_t -> bool -> bool.
Variable in_cart_space : offs_t -> bool -> bool.

(** X6.  In Horizon mode a write into the page window only reaches the page
    that is selected: whatever other page is selected afterwards, every read
    returns what it would have returned without the write. *)
Theorem horizon_write_stays_in_page :
  forall (d : horizon_ramdisk_device) (offset offset' : offs_t)
         (data value : uint8_t) (page' : Z),
    m_rambo_mode d = false ->
    ram32k_index d offset = None ->
    Z.land offset 0x1800 = 0x1800 ->
    page' <> m_page d ->
    fst (readz in_dsr_space in_cart_space offset' value
           (set_m_page (write in_dsr_space in_cart_space offset data d) page'))
    = fst (readz in_dsr_space in_cart_space offset' value (set_m_page d page')).
Proof.
  intros d offset offset' data value page' Hrambo H32 Hwin Hpage.
  unfold write. rewrite H32, Hrambo, Hwin. cbn [negb].
  change (0x1800 =? 0x1800) with true. cbv iota. rewrite andb_true_r.
  destruct (m_hideswitch d) eqn:Hhide; [reflexivity |].
  destruct (negb (m_selected d)) eqn:Hsel; [reflexivity |].
  destruct (in_dsr_space offset (m_genmod_fix d)) eqn:Hdsr; [| reflexivity].
  unfold readz, ram32k_index.
  cbn [set_m_page set_m_nvram m_32k_installed m_hideswitch m_selected
       m_rambo_mode m_genmod_fix m_nvram m_ros m_ram m_page].
  destruct (if m_32k_installed d then ram32k_window offset' else None);
    [reflexivity |].
  rewrite Hhide, Hsel, Hrambo. cbn [negb andb].
  destruct (in_dsr_space offset' (m_genmod_fix d)); [| reflexivity].
  destruct (Z.land offset' 0x1800 =? 0x1800); [| reflexivity].
  cbn [fst]. apply upd_other.
  intros Heq. apply horizon_index_inj in Heq as [Heq _]. contradiction.
Qed.

End PageIsolation.

(** ** What a CRU write can change *)

Lemma cruwrite_shape (d : horizon_ramdisk_device) (offset : offs_t) (data : uint8_t) :
  cruwrite offset data d =
    set_m_page
      (set_m_rambo_mode
         (set_m_selected d (m_selected (cruwrite offset data d)))
         (m_rambo_mode (cruwrite offset data d)))
      (m_page (cruwrite offset data d)).
Proof.
  unfold cruwrite.
  destruct (cru_match d offset); [| destruct d; reflexivity].
  pose proof (cru_bit_range offset) as Hbit.
  set (bit := cru_bit offset) in *. clearbody bit.
  set (size := read_HORIZONSIZE (HORIZONSIZE (ioport d))). clearbody size.
  assert (Hcases : bit = 0 \/ bit = 1 \/ bit = 2 \/ bit = 3 \/ bit = 4 \/ bit = 5
                   \/ bit = 6 \/ bit = 7 \/ bit = 8 \/ bit = 9 \/ bit = 10
                   \/ bit = 11 \/ bit = 12 \/ bit = 13 \/ bit = 14 \/ bit = 15) by lia.
  unfold cruwrite_split, cruwrite_switch.
  destruct d as [ram nvram ros page ch cp ti inst split rambo hide use gen sel io].
  repeat (destruct Hcases as [-> | Hcases]); [.. | subst bit];
    cbn -[Z.shiftl setbit Z.add Z.eqb Z.leb Z.ltb Z.land];
    repeat match goal with
           | |- context [?a =? size + 10] => destruct (Z.eqb_spec a (size + 10)); try lia
           | |- context [?a <=? size + 10] => destruct (Z.leb_spec a (size + 10)); try lia
           end;
    destruct rambo, split, ti, use; reflexivity.
Qed.

(** X7.  A [cruwrite] can change three registers only: the selection, the
    RAMBO mode and the page.  The three memories, the CRU bases, the split
    and TI settings, the hideswitch and the port settings stay as they are;
    and a [cruwrite] whose offset matches neither CRU base changes nothing
    at all. *)
Theorem cruwrite_changes_three_registers :
  forall (d : horizon_ramdisk_device) (offset : offs_t) (data : uint8_t),
    cruwrite offset data d =
      set_m_page
        (set_m_rambo_mode
           (set_m_selected d (m_selected (cruwrite offset data d)))
           (m_rambo_mode (cruwrite offset data d)))
        (m_page (cruwrite offset data d))
    /\ (cru_match d offset = false -> cruwrite offset data d = d).
Proof.
  intros d offset data. split.
  - apply cruwrite_shape.
  - intros Hmiss. unfold cruwrite. now rewrite Hmiss.
Qed.

Lemma cruwrite_configuration (d : horizon_ramdisk_device) (offset : offs_t) (data : uint8_t) :
  configuration (cruwrite offset data d) = configuration d.
Proof. rewrite cruwrite_shape. reflexivity. Qed.

Lemma cruwrite_rambo_mode (d : horizon_ramdisk_device) (offset : offs_t) (data : uint8_t) :
  m_use_rambo d = false ->
  m_rambo_mode (cruwrite offset data d) = m_rambo_mode d.
Proof.
  intros Huse. unfold cruwrite.
  destruct (cru_match d offset); [| reflexivity].
  pose proof (cru_bit_range offset) as Hbit.
  destruct (cruwrite_split_frame (read_HORIZONSIZE (HORIZONSIZE (ioport d)))
              (cru_bit offset) offset
              (cruwrite_switch (read_HORIZONSIZE (HORIZONSIZE (ioport d)))
                 (cru_bit offset) data d)) as (_ & ->).
  destruct (cruwrite_switch_frame (read_HORIZONSIZE (HORIZONSIZE (ioport d)))
              (cru_bit offset) data d Hbit) as (_ & _ & _ & _ & _ & _ & _ & ->).
  now rewrite Huse, andb_false_r.
Qed.

Section RunProperties.

Variable in_dsr_space : offs_t -> bool -> bool.
Variable in_cart_space : offs_t -> bool -> bool.

Lemma step_configuration (d : horizon_ramdisk_device) (op : bus_op) :
  configuration (step in_dsr_space in_cart_space d op) = configuration d.
Proof.
  destruct op as [o v | o v | o v | o v | n]; cbn [step].
  - now rewrite readz_device.
  - pose proof (write_registers in_dsr_space in_cart_space d o v) as H.
    unfold registers in H. unfold configuration. congruence.
  - reflexivity.
  - apply cruwrite_configuration.
  - reflexivity.
Qed.

Lemma run_configuration (ops : list bus_op) :
  forall d : horizon_ramdisk_device,
    configuration (run in_dsr_space in_cart_space ops d) = configuration d.
Proof.
  unfold run. induction ops as [| op ops IH]; intros d; cbn [fold_left].
  - reflexivity.
  - rewrite IH. apply step_configuration.
Qed.

(** X8.  Between resets the configuration is fixed: no sequence of reads,
    writes, CRU accesses and hideswitch changes alters a CRU base, the
    split, TI, 32K, RAMBO-enable or Genmod setting of the card. *)
Theorem run_keeps_configuration :
  forall (ops : list bus_op) (d : horizon_ramdisk_device),
    configuration (run in_dsr_space in_cart_space ops d) = configuration d.
Proof. exact run_configuration. Qed.

Lemma step_rambo_off (d : horizon_ramdisk_device) (op : bus_op) :
  m_use_rambo d = false -> m_rambo_mode d = false ->
  m_rambo_mode (step in_dsr_space in_cart_space d op) = false.
Proof.
  intros Huse Hoff.
  destruct op as [o v | o v | o v | o v | n]; cbn [step].
  - now rewrite readz_device.
  - pose proof (write_registers in_dsr_space in_cart_space d o v) as H.
    unfold registers in H. congruence.
  - exact Hoff.
  - now rewrite cruwrite_rambo_mode.
  - exact Hoff.
Qed.

Lemma run_rambo_off (ops : list bus_op) :
  forall d : horizon_ramdisk_device,
    m_use_rambo d = false -> m_rambo_mode d = false ->
    m_rambo_mode (run in_dsr_space in_cart_space ops d) = false.
Proof.
  unfold run. induction ops as [| op ops IH]; intros d Huse Hoff; cbn [fold_left].
  - exact Hoff.
  - apply IH.
    + pose proof (step_configuration d op) as H. unfold configuration in H. congruence.
    + now apply step_rambo_off.
Qed.

(** X9.  RAMBO mode needs the RAMBO setting: on a card reset with the RAMBO
    port off, no sequence of bus operations switches [m_rambo_mode] on, so
    cartridge space alone is never decoded: an access outside DSR space and
    outside the 32K windows is void. *)
Theorem rambo_needs_configuration :
  forall (d : horizon_ramdisk_device) (ops : list bus_op) (offset : offs_t),
    RAMBO (ioport d) = false ->
    let d' := run in_dsr_space in_cart_space ops (device_reset d) in
    m_rambo_mode d' = false
    /\ (in_dsr_space offset (m_genmod_fix d') = false ->
        ram32k_index d' offset = None ->
        access_decoded in_dsr_space in_cart_space d' offset = false).
Proof.
  intros d ops offset Hport d'.
  assert (Hoff : m_rambo_mode d' = false).
  { apply run_rambo_off; cbn; [now rewrite Hport | reflexivity]. }
  split; [exact Hoff |].
  intros Hdsr H32. unfold access_decoded.
  rewrite H32, Hoff, Hdsr. now rewrite andb_false_r, andb_false_r.
Qed.

End RunProperties.

(** ** The page register and the configured size *)

Lemma cru_page_pattern_line_le (d : horizon_ramdisk_device) (size bit pattern : Z) :
  0 <= size ->
  cru_page_pattern d size bit = Some pattern -> cru_page_line bit <= 9 + size.
Proof.
  intros Hsize. unfold cru_page_pattern, cru_page_line.
  destruct (Z.eqb_spec bit 1); [intros _; lia |].
  destruct (Z.eqb_spec bit 2); [intros _; lia |].
  destruct (Z.leb_spec 3 bit), (Z.leb_spec bit 9); cbn [andb];
    try (intros _; lia).
  all: destruct (Z.leb_spec 10 bit), (Z.leb_spec bit 13); cbn [andb];
    try discriminate.
  all: destruct (Z.ltb_spec (size + 10) bit);
    [rewrite orb_true_r; discriminate | intros _; lia].
Qed.

Lemma cruwrite_page_within (offset : offs_t) (data : uint8_t) (d : horizon_ramdisk_device) :
  let size := read_HORIZONSIZE (HORIZONSIZE (ioport d)) in
  0 <= m_page d < 2 ^ (10 + size) ->
  0 <= m_page (cruwrite offset data d) < 2 ^ (10 + size).
Proof.
  intros size Hpage.
  pose proof (read_HORIZONSIZE_range (HORIZONSIZE (ioport d))) as Hsize.
  fold size in Hsize.
  destruct (cru_match d offset) eqn:Hmatch.
  - rewrite (cruwrite_page d offset data Hmatch). fold size.
    assert (Hpaged :
      0 <= match cru_page_pattern d size (cru_bit offset) with
           | Some pattern => setbit (m_page d) pattern (nonzero data)
           | None => m_page d
           end < 2 ^ (10 + size)).
    { destruct (cru_page_pattern d size (cru_bit offset)) as [pattern |] eqn:Hpat;
        [| assumption].
      apply setbit_range; [lia | assumption |].
      pose proof (cru_page_pattern_line_le d size _ _ (proj1 Hsize) Hpat) as Hle.
      apply cru_page_pattern_pow2 in Hpat as (-> & Hline & _). split.
      - apply Z.pow_nonneg. lia.
      - apply Z.pow_lt_mono_r; lia. }
    destruct (m_split_mode d); [| assumption].
    apply setbit_range; [lia | assumption |].
    rewrite shiftl_0x200 by lia. split.
    + apply Z.pow_nonneg. lia.
    + apply Z.pow_lt_mono_r; lia.
  - unfold cruwrite. now rewrite Hmatch.
Qed.

Lemma pow2_size (s : HORIZONSIZE_setting) :
  2 ^ (10 + read_HORIZONSIZE s) = 1024 * 2 ^ read_HORIZONSIZE s
  /\ 0 < 2 ^ read_HORIZONSIZE s.
Proof. destruct s; cbn; lia. Qed.

Lemma horizon_index_within (d : horizon_ramdisk_device) (page : Z) (offset : offs_t) :
  0 <= page < 2 ^ (10 + read_HORIZONSIZE (HORIZONSIZE (ioport d))) ->
  0 <= horizon_index page offset < configured_size d.
Proof.
  intros Hpage. rewrite configured_size_pow2, horizon_index_sum.
  destruct (pow2_size (HORIZONSIZE (ioport d))) as [Hpow Hpos].
  rewrite Hpow in Hpage.
  pose proof (Z.mod_pos_bound offset 2048 eq_refl). lia.
Qed.

Lemma rambo_page_range (page : Z) (offset : offs_t) (n : Z) :
  2 <= n -> 0 <= page < 2 ^ n ->
  0 <= Z.lor (Z.land page 0xfffc) (Z.land (Z.shiftr offset 11) 3) < 2 ^ n.
Proof.
  intros Hn Hpage. apply lor_range; [lia | |].
  - apply land_range; [lia | assumption].
  - rewrite Z.land_comm. apply land_range; [lia |].
    split; [lia |]. apply (Z.lt_le_trans _ (2 ^ 2)); [reflexivity |].
    apply Z.pow_le_mono_r; lia.
Qed.

Lemma rambo_index_within (d : horizon_ramdisk_device) (page : Z) (offset : offs_t) :
  0 <= page < 2 ^ (10 + read_HORIZONSIZE (HORIZONSIZE (ioport d))) ->
  0 <= rambo_index page offset < configured_size d.
Proof.
  intros Hpage. rewrite rambo_index_as_horizon.
  apply horizon_index_within. apply rambo_page_range; [| assumption].
  pose proof (read_HORIZONSIZE_range (HORIZONSIZE (ioport d))). lia.
Qed.

Section ConfiguredSize.

Variable in_dsr_space : offs_t -> bool -> bool.
Variable in_cart_space : offs_t -> bool -> bool.

Lemma step_page_within (d : horizon_ramdisk_device) (op : bus_op) :
  0 <= m_page d < 2 ^ (10 + read_HORIZONSIZE (HORIZONSIZE (ioport d))) ->
  0 <= m_page (step in_dsr_space in_cart_space d op)
    < 2 ^ (10 + read_HORIZONSIZE
                  (HORIZONSIZE (ioport (step in_dsr_space in_cart_space d op)))).
Proof.
  intros Hpage.
  pose proof (step_configuration in_dsr_space in_cart_space d op) as Hconf.
  unfold configuration in Hconf.
  assert (Hio : ioport (step in_dsr_space in_cart_space d op) = ioport d)
    by congruence.
  rewrite Hio. clear Hconf Hio.
  destruct op as [o v | o v | o v | o v | n]; cbn [step].
  - now rewrite readz_device.
  - now rewrite write_page.
  - exact Hpage.
  - now apply cruwrite_page_within.
  - exact Hpage.
Qed.

Lemma run_page_within (ops : list bus_op) :
  forall d : horizon_ramdisk_device,
    0 <= m_page d < 2 ^ (10 + read_HORIZONSIZE (HORIZONSIZE (ioport d))) ->
    0 <= m_page (run in_dsr_space in_cart_space ops d)
      < 2 ^ (10 + read_HORIZONSIZE
                    (HORIZONSIZE (ioport (run in_dsr_space in_cart_space ops d)))).
Proof.
  unfold run. induction ops as [| op ops IH]; intros d Hpage; cbn [fold_left].
  - exact Hpage.
  - apply IH. now apply step_page_within.
Qed.

Lemma reset_page_within (d : horizon_ramdisk_device) :
  0 <= m_page (device_reset d)
    < 2 ^ (10 + read_HORIZONSIZE (HORIZONSIZE (ioport (device_reset d)))).
Proof.
  cbn [device_reset m_page ioport].
  destruct (pow2_size (HORIZONSIZE (ioport d))) as [-> Hpos]. lia.
Qed.

(** X10.  The page register stays inside the configured size: after
    [device_reset] and any sequence of bus operations, [m_page] is below
    [0x400 << size], and for every offset the NVRAM byte addressed in Horizon
    mode and the one addressed in RAMBO mode lie in the first
    [2 MiB * 2^size] bytes, the part that [nvram_write] saves. *)
Theorem accesses_within_configured_size :
  forall (d : horizon_ramdisk_device) (ops : list bus_op) (offset : offs_t),
    let d' := run in_dsr_space in_cart_space ops (device_reset d) in
    let size := read_HORIZONSIZE (HORIZONSIZE (ioport d)) in
    0 <= m_page d' < Z.shiftl 0x400 size
    /\ 0 <= Z.lor (Z.shiftl (m_page d') 11) (Z.land offset 0x07ff)
       < 2097152 * 2 ^ size
    /\ 0 <= Z.lor (Z.shiftl (Z.land (m_page d') 0xfffc) 11) (Z.land offset 0x1fff)
       < 2097152 * 2 ^ size.
Proof.
  intros d ops offset d' size.
  pose proof (run_page_within ops (device_reset d) (reset_page_within d)) as Hpage.
  fold d' in Hpage.
  pose proof (run_configuration in_dsr_space in_cart_space ops (device_reset d)) as Hconf.
  unfold configuration in Hconf. fold d' in Hconf.
  assert (Hio : ioport d' = ioport d) by (cbn in Hconf; congruence).
  pose proof (horizon_index_within d' (m_page d') offset Hpage) as Hh.
  pose proof (rambo_index_within d' (m_page d') offset Hpage) as Hr.
  rewrite configured_size_pow2 in Hh, Hr. rewrite Hio in *. fold size in Hpage, Hh, Hr.
  split; [| split; assumption].
  pose proof (read_HORIZONSIZE_range (HORIZONSIZE (ioport d))) as Hsize.
  fold size in Hsize.
  rewrite Z.shiftl_mul_pow2 by lia.
  destruct (pow2_size (HORIZONSIZE (ioport d))) as [Hpow _]. fold size in Hpow.
  lia.
Qed.

End ConfiguredSize.

(** ** The two halves of a split card *)

Lemma testbit_top (a n : Z) :
  0 <= n -> 0 <= a < 2 ^ (n + 1) -> Z.testbit a n = (2 ^ n <=? a).
Proof.
  intros Hn Ha.
  rewrite Z.testbit_odd, Z.shiftr_div_pow2 by assumption.
  rewrite Z.pow_add_r in Ha by lia. change (2 ^ 1) with 2 in Ha.
  assert (Hpos : 0 < 2 ^ n) by (apply Z.pow_pos_nonneg; lia).
  destruct (Z.leb_spec (2 ^ n) a) as [Hge | Hlt].
  - replace (a / 2 ^ n) with 1; [reflexivity |].
    apply Z.div_unique with (r := a - 2 ^ n); lia.
  - rewrite Z.div_small by lia. reflexivity.
Qed.

Lemma split_half_of_page (d : horizon_ramdisk_device) (page : Z) (offset : offs_t)
    (upper : bool) :
  let size := read_HORIZONSIZE (HORIZONSIZE (ioport d)) in
  0 <= page < 2 ^ (10 + size) ->
  Z.testbit page (9 + size) = upper ->
  if upper
  then 1048576 * 2 ^ size <= horizon_index page offset < 2097152 * 2 ^ size
  else 0 <= horizon_index page offset < 1048576 * 2 ^ size.
Proof.
  intros size Hpage Hbit.
  pose proof (read_HORIZONSIZE_range (HORIZONSIZE (ioport d))) as Hsize.
  fold size in Hsize.
  rewrite testbit_top in Hbit
    by (try lia; replace (9 + size + 1) with (10 + size) by lia; assumption).
  rewrite horizon_index_sum.
  pose proof (Z.mod_pos_bound offset 2048 eq_refl) as Hmod.
  assert (Hpos : 0 < 2 ^ size) by (apply Z.pow_pos_nonneg; lia).
  rewrite !Z.pow_add_r in * by lia.
  change (2 ^ 10) with 1024 in *. change (2 ^ 9) with 512 in *.
  destruct upper.
  - apply Z.leb_le in Hbit. lia.
  - apply Z.leb_gt in Hbit. lia.
Qed.

(** X11.  A split card keeps its two drives in separate halves.  On a card
    in split mode whose page register is inside the configured size, after
    any [cruwrite] at one of the two CRU bases every NVRAM byte addressed
    in Horizon mode or in RAMBO mode lies in the upper half of the first
    [2 MiB * 2^size] bytes when the access selected the second drive
    (Phoenix base in TI mode, CRU bit above 7 in Geneve mode), and in the
    lower half otherwise. *)
Theorem split_drives_use_separate_halves :
  forall (d : horizon_ramdisk_device) (cru_offset : offs_t) (data : uint8_t)
         (offset : offs_t),
    let size := read_HORIZONSIZE (HORIZONSIZE (ioport d)) in
    let page := m_page (cruwrite cru_offset data d) in
    m_split_mode d = true ->
    cru_match d cru_offset = true ->
    0 <= m_page d < Z.shiftl 0x400 size ->
    if split_drive d cru_offset
    then 1048576 * 2 ^ size <= horizon_index page offset < 2097152 * 2 ^ size
         /\ 1048576 * 2 ^ size <= rambo_index page offset < 2097152 * 2 ^ size
    else 0 <= horizon_index page offset < 1048576 * 2 ^ size
         /\ 0 <= rambo_index page offset < 1048576 * 2 ^ size.
Proof.
  intros d cru_offset data offset size page Hsplit Hmatch Hpage.
  pose proof (read_HORIZONSIZE_range (HORIZONSIZE (ioport d))) as Hsize.
  fold size in Hsize.
  assert (Hpage0 : 0 <= m_page d < 2 ^ (10 + size)).
  { rewrite Z.shiftl_mul_pow2 in Hpage by lia.
    rewrite Z.pow_add_r by lia. exact Hpage. }
  pose proof (cruwrite_page_within cru_offset data d Hpage0) as Hpage'.
  fold page in Hpage'. fold size in Hpage'.
  assert (Hbit : Z.testbit page (9 + size) = split_drive d cru_offset).
  { subst page.
    rewrite (cruwrite_page_bits d cru_offset data (9 + size) Hmatch) by lia.
    fold size. now rewrite Hsplit, Z.eqb_refl. }
  assert (Hbit' :
    Z.testbit (Z.lor (Z.land page 0xfffc) (Z.land (Z.shiftr offset 11) 3)) (9 + size)
    = split_drive d cru_offset).
  { rewrite Z.lor_spec, !Z.land_spec, Hbit.
    change 3 with (Z.ones 2).
    rewrite testbit_0xfffc, testbit_ones by lia.
    destruct (Z.leb_spec 2 (9 + size)), (Z.ltb_spec (9 + size) 16),
      (Z.ltb_spec (9 + size) 2); try lia.
    cbn [andb]. now rewrite andb_true_r, andb_false_r, orb_false_r. }
  pose proof (rambo_page_range page offset (10 + size) ltac:(lia) Hpage') as Hrpage.
  pose proof (split_half_of_page d page offset _ Hpage' Hbit) as Hh.
  pose proof (split_half_of_page d _ offset _ Hrpage Hbit') as Hr.
  rewrite <- rambo_index_as_horizon in Hr. fold size in Hh, Hr.
  destruct (split_drive d cru_offset); split; assumption.
Qed.

(** ** Persistence seen from the bus *)

Lemma nvram_roundtrip_nvram (d d0 : horizon_ramdisk_device) (i : Z) :
  HORIZONSIZE (ioport d0) = HORIZONSIZE (ioport d) ->
  0 <= i < configured_size d ->
  m_nvram (nvram_read (nvram_write d) d0) i = m_nvram d i.
Proof.
  intros Hsame Hi.
  pose proof (configured_size_range d) as Hsize.
  pose proof (nvram_write_length d) as Hlen.
  unfold MAXSIZE, ROSSIZE in *.
  rewrite nvram_read_nvram, Hlen. unfold MAXSIZE, ROSSIZE.
  rewrite Z.min_l by lia.
  destruct (Z.leb_spec 0 i), (Z.ltb_spec i (configured_size d + 8192 - 8192));
    cbn [andb]; try lia.
  rewrite nvram_write_nth, Z2Nat.id by lia.
  destruct (Z.ltb_spec i (configured_size d)); [reflexivity | lia].
Qed.

Lemma nvram_roundtrip_ros (d d0 : horizon_ramdisk_device) (j : Z) :
  0 <= j < 8192 ->
  m_ros (nvram_read (nvram_write d) d0) j = m_ros d j.
Proof.
  intros Hj.
  pose proof (configured_size_range d) as Hsize.
  pose proof (nvram_write_length d) as Hlen.
  unfold MAXSIZE, ROSSIZE in *.
  rewrite nvram_read_ros, Hlen. unfold MAXSIZE, ROSSIZE.
  rewrite Z.min_l by lia.
  destruct (Z.leb_spec 0 j), (Z.ltb_spec j 8192),
    (Z.leb_spec 8192 (configured_size d + 8192)); cbn [andb]; try lia.
  rewrite nvram_write_nth, Z2Nat.id by lia. unfold ROSSIZE.
  destruct (Z.ltb_spec (configured_size d + 8192 - 8192 + j) (configured_size d)),
    (Z.ltb_spec (configured_size d + 8192 - 8192 + j) (configured_size d + 8192));
    try lia.
  f_equal. lia.
Qed.

Lemma nvram_read_registers (file : emu_file) (d : horizon_ramdisk_device) :
  registers (nvram_read file d) = registers d
  /\ m_ram (nvram_read file d) = m_ram d.
Proof.
  unfold nvram_read, file_read.
  destruct (0 <=? Z.min (Z.of_nat (List.length file)) (MAXSIZE + ROSSIZE) - ROSSIZE);
    split; reflexivity.
Qed.

Lemma land_0x1fff_range (offset : offs_t) : 0 <= Z.land offset 0x1fff < 8192.
Proof.
  change 0x1fff with (Z.ones 13). rewrite land_low_ones by lia.
  apply Z.mod_pos_bound. reflexivity.
Qed.

Section Persistence.

Variable in_dsr_space : offs_t -> bool -> bool.
Variable in_cart_space : offs_t -> bool -> bool.

(** Two cards with the same registers and 32K contents that agree on ROS and
    on the part of NVRAM that the page register can reach read alike. *)
Lemma readz_agree (d1 d2 : horizon_ramdisk_device) (n : Z)
    (offset : offs_t) (value : uint8_t) :
  registers d2 = registers d1 ->
  m_ram d2 = m_ram d1 ->
  (forall j, 0 <= j < 8192 -> m_ros d2 j = m_ros d1 j) ->
  (forall i, 0 <= i < n -> m_nvram d2 i = m_nvram d1 i) ->
  0 <= horizon_index (m_page d1) offset < n ->
  0 <= rambo_index (m_page d1) offset < n ->
  fst (readz in_dsr_space in_cart_space offset value d2)
  = fst (readz in_dsr_space in_cart_space offset value d1).
Proof.
  intros Hreg Hram Hros Hnv Hh Hr.
  pose proof (land_0x1fff_range offset) as Hoff.
  destruct d1 as [ram1 nv1 ros1 page ch cp ti inst split rambo hide use gen sel io].
  destruct d2 as [ram2 nv2 ros2 page2 ch2 cp2 ti2 inst2 split2 rambo2 hide2 use2
                  gen2 sel2 io2].
  unfold registers in Hreg. cbn in Hreg, Hram, Hros, Hnv, Hh, Hr.
  injection Hreg as -> -> -> -> -> -> -> -> -> -> -> ->. subst ram2.
  unfold readz, ram32k_index.
  cbn [m_32k_installed m_hideswitch m_selected m_rambo_mode m_genmod_fix
       m_ram m_nvram m_ros m_page].
  destruct (if inst then ram32k_window offset else None); [reflexivity |].
  destruct hide; [reflexivity |].
  destruct (negb sel && negb rambo); [reflexivity |].
  destruct (negb rambo).
  - destruct (in_dsr_space offset gen); [| reflexivity].
    destruct (Z.land offset 0x1800 =? 0x1800); cbn [fst].
    + now apply Hnv.
    + now apply Hros.
  - cbn [fst].
    destruct (in_cart_space offset gen); [now apply Hnv |].
    destruct (in_dsr_space offset gen); [now apply Hros | reflexivity].
Qed.

(** X12.  What the card shows on the bus survives saving and restoring: take
    a card after [device_reset] and any sequence of bus operations, write
    its NVRAM file, and read the file back into the card with arbitrary
    contents in the two buffered memories.  Every [readz] then returns the
    byte it returned before, and the registers are unchanged. *)
Theorem bus_contents_survive_save_restore :
  forall (d : horizon_ramdisk_device) (ops : list bus_op) (nvram ros : mem)
         (offset : offs_t) (value : uint8_t),
    let d1 := run in_dsr_space in_cart_space ops (device_reset d) in
    let d2 := nvram_read (nvram_write d1) (with_buffered d1 nvram ros) in
    fst (readz in_dsr_space in_cart_space offset value d2)
    = fst (readz in_dsr_space in_cart_space offset value d1)
    /\ registers d2 = registers d1.
Proof.
  intros d ops nvram ros offset value d1 d2.
  pose proof (run_page_within in_dsr_space in_cart_space ops (device_reset d)
                (reset_page_within d)) as Hpage.
  fold d1 in Hpage.
  destruct (nvram_read_registers (nvram_write d1) (with_buffered d1 nvram ros))
    as [Hreg Hram].
  fold d2 in Hreg, Hram.
  assert (Hreg' : registers d2 = registers d1) by (rewrite Hreg; reflexivity).
  split; [| exact Hreg'].
  apply (readz_agree d1 d2 (configured_size d1)).
  - exact Hreg'.
  - rewrite Hram. reflexivity.
  - intros j Hj. now apply nvram_roundtrip_ros.
  - intros i Hi. now apply nvram_roundtrip_nvram.
  - now apply horizon_index_within.
  - now apply rambo_index_within.
Qed.

End Persistence.

(** ** Start, reset and the hideswitch *)

Section ResetProperties.

Variable in_dsr_space : offs_t -> bool -> bool.
Variable in_cart_space : offs_t -> bool -> bool.

(** X13.  After [device_reset] the card is closed: page 0, not selected, not
    in RAMBO mode, so only the 32K windows are decoded; the three memories
    keep their contents; and a second reset changes nothing more. *)
Theorem reset_closes_card :
  forall (d : horizon_ramdisk_device) (offset : offs_t),
    let d' := device_reset d in
    access_decoded in_dsr_space in_cart_space d' offset = served_by_32k d' offset
    /\ (m_page d', m_selected d', m_rambo_mode d') = (0, false, false)
    /\ (m_ram d', m_nvram d', m_ros d') = (m_ram d, m_nvram d, m_ros d)
    /\ device_reset d' = d'.
Proof.
  intros d offset d'. repeat split.
  unfold access_decoded, served_by_32k.
  destruct (ram32k_index d' offset); [reflexivity |].
  cbn. apply andb_false_r.
Qed.

Lemma cruwrite_hideswitch (d : horizon_ramdisk_device) (offset : offs_t) (data : uint8_t) :
  m_hideswitch (cruwrite offset data d) = m_hideswitch d.
Proof. rewrite cruwrite_shape. reflexivity. Qed.

Lemma setbit_zero (pattern : Z) (set : bool) :
  setbit 0 pattern set = if set then pattern else 0.
Proof. unfold setbit. destruct set; [apply Z.lor_0_l | apply Z.land_0_l]. Qed.

(** X14.  Opening the card: after [device_reset] with the hideswitch port
    off, one [cruwrite] of a non-zero value to bit 0 of a matching CRU base
    makes exactly DSR space (and the 32K windows) decoded, and selects page
    0, or, on a split card addressed as its second drive, the page
    [0x0200 << size] at which the upper half begins. *)
Theorem select_opens_dsr_space :
  forall (d : horizon_ramdisk_device) (cru_offset : offs_t) (data : uint8_t)
         (offset : offs_t),
    let d0 := device_reset d in
    let d' := cruwrite cru_offset data d0 in
    let size := read_HORIZONSIZE (HORIZONSIZE (ioport d)) in
    HORIZONACT (ioport d) = false ->
    cru_match d0 cru_offset = true ->
    cru_bit cru_offset = 0 ->
    data <> 0 ->
    access_decoded in_dsr_space in_cart_space d' offset
      = (served_by_32k d' offset || in_dsr_space offset (m_genmod_fix d'))
    /\ m_page d'
       = (if m_split_mode d0 && split_drive d0 cru_offset
          then Z.shiftl 0x0200 size else 0).
Proof.
  intros d cru_offset data offset d0 d' size Hact Hmatch Hbit Hdata.
  assert (Hnz : nonzero data = true).
  { unfold nonzero. destruct (Z.eqb_spec data 0); [contradiction | reflexivity]. }
  pose proof (cru_bit_range cru_offset) as Hrange.
  assert (Hflags : m_selected d' = true /\ m_rambo_mode d' = false).
  { subst d'. unfold cruwrite. rewrite Hmatch.
    destruct (cruwrite_split_frame
                (read_HORIZONSIZE (HORIZONSIZE (ioport d0))) (cru_bit cru_offset)
                cru_offset
                (cruwrite_switch (read_HORIZONSIZE (HORIZONSIZE (ioport d0)))
                   (cru_bit cru_offset) data d0)) as (-> & ->).
    destruct (cruwrite_switch_frame
                (read_HORIZONSIZE (HORIZONSIZE (ioport d0))) (cru_bit cru_offset)
                data d0 Hrange) as (_ & _ & _ & _ & _ & _ & -> & ->).
    rewrite Hbit. cbn [Z.eqb andb]. split; [exact Hnz | reflexivity]. }
  destruct Hflags as [Hsel Hrambo].
  assert (Hhide : m_hideswitch d' = false).
  { subst d'. rewrite cruwrite_hideswitch. subst d0. cbn. now rewrite Hact. }
  split.
  - unfold access_decoded, served_by_32k.
    destruct (ram32k_index d' offset); [reflexivity |].
    now rewrite Hhide, Hrambo, Hsel.
  - subst d'. rewrite (cruwrite_page d0 cru_offset data Hmatch).
    rewrite Hbit. cbn [cru_page_pattern Z.eqb andb Z.leb Z.compare].
    change (m_page d0) with 0. rewrite setbit_zero.
    destruct (m_split_mode d0), (split_drive d0 cru_offset); reflexivity.
Qed.

(** X15.  The hideswitch hides DSR and cartridge space and nothing else.
    After [hs_changed] with a non-zero value only the 32K windows are
    decoded; [hs_changed] touches no memory and no other register; and on a
    card that was not hidden, hiding and showing again gives back the card
    as it was. *)
Theorem hideswitch_hides_and_restores :
  forall (d : horizon_ramdisk_device) (newval : Z) (offset : offs_t),
    newval <> 0 ->
    access_decoded in_dsr_space in_cart_space (hs_changed newval d) offset
      = served_by_32k d offset
    /\ hs_changed newval d = set_m_hideswitch d true
    /\ (m_hideswitch d = false -> hs_changed 0 (hs_changed newval d) = d).
Proof.
  intros d newval offset Hnz.
  assert (Hon : nonzero newval = true).
  { unfold nonzero. destruct (Z.eqb_spec newval 0); [contradiction | reflexivity]. }
  unfold hs_changed. rewrite Hon. split; [| split].
  - unfold access_decoded, served_by_32k, ram32k_index.
    cbn [set_m_hideswitch m_32k_installed m_hideswitch].
    destruct (if m_32k_installed d then ram32k_window offset else None); reflexivity.
  - reflexivity.
  - intros Hshown. destruct d. cbn in *. now subst.
Qed.

End ResetProperties.

(** X16.  A CRU base that is switched off is the base 0000, and it still
    matches.  After [device_start], and after [device_reset] with the
    Phoenix base (or the Horizon base) set to Off, every CRU offset whose
    bits 8 to 15 are zero is taken as addressed to the card: it matches, and
    a write of 1 to its bit 0 selects the card. *)
Theorem cru_base_off_is_base_zero :
  forall (d : horizon_ramdisk_device) (offset : offs_t),
    Z.land offset 0xff00 = 0 ->
    cru_match (device_start d) offset = true
    /\ (CRUHOR (ioport d) = CRUHOR_off \/ CRUPHOE (ioport d) = CRUPHOE_off ->
        cru_match (device_reset d) offset = true
        /\ (cru_bit offset = 0 ->
            m_selected (cruwrite offset 1 (device_reset d)) = true)).
Proof.
  intros d offset Hzero.
  split; [unfold cru_match; cbn; now rewrite Hzero |].
  intros Hoff.
  assert (Hmatch : cru_match (device_reset d) offset = true).
  { unfold cru_match. cbn [device_reset m_cru_horizon m_cru_phoenix]. rewrite Hzero.
    destruct Hoff as [-> | ->]; cbn; [reflexivity | apply orb_true_r]. }
  split; [exact Hmatch |].
  intros Hbit.
  pose proof (cru_bit_range offset) as Hrange.
  unfold cruwrite. rewrite Hmatch.
  destruct (cruwrite_split_frame
              (read_HORIZONSIZE (HORIZONSIZE (ioport (device_reset d))))
              (cru_bit offset) offset
              (cruwrite_switch
                 (read_HORIZONSIZE (HORIZONSIZE (ioport (device_reset d))))
                 (cru_bit offset) 1 (device_reset d))) as (-> & _).
  destruct (cruwrite_switch_frame
              (read_HORIZONSIZE (HORIZONSIZE (ioport (device_reset d))))
              (cru_bit offset) 1 (device_reset d) Hrange)
    as (_ & _ & _ & _ & _ & _ & -> & _).
  now rewrite Hbit.
Qed.

(** ** NVRAM files, continued *)

(** X17.  A file shorter than the ROS is ignored: [nvram_read] then leaves
    the card exactly as [nvram_default] does, that is with zeros in the
    first [2 MiB * 2^size] bytes of NVRAM and in the 8192 bytes of ROS, and
    everything else as it was. *)
Theorem short_file_gives_default :
  forall (d : horizon_ramdisk_device) (file : emu_file) (i : Z),
    Z.of_nat (List.length file) < 8192 ->
    nvram_read file d = nvram_default d
    /\ m_nvram (nvram_default d) i
       = (if (0 <=? i) && (i <? 2097152 * 2 ^ read_HORIZONSIZE (HORIZONSIZE (ioport d)))
          then 0 else m_nvram d i)
    /\ m_ros (nvram_default d) i
       = (if (0 <=? i) && (i <? 8192) then 0 else m_ros d i)
    /\ registers (nvram_default d) = registers d
    /\ m_ram (nvram_default d) = m_ram d.
Proof.
  intros d file i Hshort. split; [| repeat split].
  - unfold nvram_read, nvram_default, file_read, MAXSIZE, ROSSIZE.
    destruct (Z.leb_spec 0 (Z.min (Z.of_nat (List.length file)) (16777216 + 8192) - 8192));
      [lia | reflexivity].
  - rewrite <- configured_size_pow2. reflexivity.
Qed.

(** X18.  Reading a file and writing it again gives the same file: for a
    file of exactly [2 MiB * 2^size + 8192] bytes, [nvram_write] after
    [nvram_read] reproduces it byte for byte, whatever the card held
    before. *)
Theorem nvram_read_write_roundtrip :
  forall (d : horizon_ramdisk_device) (file : emu_file),
    Z.of_nat (List.length file)
      = 2097152 * 2 ^ read_HORIZONSIZE (HORIZONSIZE (ioport d)) + 8192 ->
    nvram_write (nvram_read file d) = file.
Proof.
  intros d file Hlen. rewrite <- configured_size_pow2 in Hlen.
  pose proof (configured_size_range d) as Hsize.
  destruct (nvram_read_registers file d) as [Hreg _].
  assert (Hcs : configured_size (nvram_read file d) = configured_size d).
  { unfold configured_size. unfold registers in Hreg. congruence. }
  pose proof (nvram_write_length (nvram_read file d)) as Hwlen.
  rewrite Hcs in Hwlen. unfold ROSSIZE, MAXSIZE in *.
  apply (nth_ext _ _ 0 0).
  { apply Nat2Z.inj. etransitivity; [exact Hwlen | symmetry; exact Hlen]. }
  intros k Hk.
  assert (Hk' : Z.of_nat k < configured_size d + 8192).
  { rewrite <- Hwlen. apply Nat2Z.inj_lt. exact Hk. }
  clear Hk. rewrite nvram_write_nth, Hcs. unfold ROSSIZE.
  rewrite nvram_read_nvram, nvram_read_ros, Hlen. unfold MAXSIZE, ROSSIZE.
  rewrite Z.min_l by lia.
  destruct (Z.ltb_spec (Z.of_nat k) (configured_size d)).
  - destruct (Z.leb_spec 0 (Z.of_nat k)),
      (Z.ltb_spec (Z.of_nat k) (configured_size d + 8192 - 8192));
      cbn [andb]; try lia.
    now rewrite Nat2Z.id.
  - destruct (Z.ltb_spec (Z.of_nat k) (configured_size d + 8192)); [| lia].
    destruct (Z.leb_spec 0 (Z.of_nat k - configured_size d)),
      (Z.ltb_spec (Z.of_nat k - configured_size d) 8192),
      (Z.leb_spec 8192 (configured_size d + 8192)); cbn [andb]; try lia.
    replace (configured_size d + 8192 - 8192 + (Z.of_nat k - configured_size d))
      with (Z.of_nat k) by lia.
    now rewrite Nat2Z.id.
Qed.

(** ** setbit *)

(** X19.  [setbit] writes the bits of the pattern and no others: setting
    leaves all of them 1, clearing leaves all of them 0, the bits outside
    the pattern keep their value either way, and doing it twice is doing it
    once. *)
Theorem setbit_writes_pattern_only :
  forall (page pattern : Z) (set : bool),
    Z.land (setbit page pattern true) pattern = pattern
    /\ Z.land (setbit page pattern false) pattern = 0
    /\ Z.land (setbit page pattern set) (Z.lnot pattern)
       = Z.land page (Z.lnot pattern)
    /\ setbit (setbit page pattern set) pattern set = setbit page pattern set.
Proof.
  intros page pattern set.
  repeat split; apply Z.bits_inj'; intros j Hj;
    rewrite ?Z.land_spec, ?testbit_setbit, ?Z.lnot_spec, ?Z.bits_0 by assumption;
    destruct (Z.testbit pattern j), (Z.testbit page j), set; reflexivity.
Qed.

(** ** Repeating a CRU write *)

Lemma cruwrite_flags (d : horizon_ramdisk_device) (offset : offs_t) (data : uint8_t) :
  cru_match d offset = true ->
  m_selected (cruwrite offset data d)
    = (if cru_bit offset =? 0 then nonzero data else m_selected d)
  /\ m_rambo_mode (cruwrite offset data d)
    = (if (cru_bit offset =? 15) && m_use_rambo d then nonzero data
       else m_rambo_mode d).
Proof.
  intros Hmatch. unfold cruwrite. rewrite Hmatch.
  pose proof (cru_bit_range offset) as Hrange.
  destruct (cruwrite_split_frame
              (read_HORIZONSIZE (HORIZONSIZE (ioport d))) (cru_bit offset) offset
              (cruwrite_switch (read_HORIZONSIZE (HORIZONSIZE (ioport d)))
                 (cru_bit offset) data d)) as (-> & ->).
  destruct (cruwrite_switch_frame
              (read_HORIZONSIZE (HORIZONSIZE (ioport d))) (cru_bit offset)
              data d Hrange) as (_ & _ & _ & _ & _ & _ & -> & ->).
  split; reflexivity.
Qed.

Lemma registers_eta (d : horizon_ramdisk_device) :
  set_m_page (set_m_rambo_mode (set_m_selected d (m_selected d)) (m_rambo_mode d))
    (m_page d) = d.
Proof. destruct d. reflexivity. Qed.

Lemma cru_page_pattern_after (d : horizon_ramdisk_device) (offset : offs_t)
    (data : uint8_t) (size : Z) :
  cru_match d offset = true ->
  cru_page_pattern (cruwrite offset data d) size (cru_bit offset)
  = cru_page_pattern d size (cru_bit offset).
Proof.
  intros Hmatch.
  destruct (cruwrite_flags d offset data Hmatch) as [_ Hrambo].
  pose proof (cruwrite_configuration d offset data) as Hconf.
  unfold configuration in Hconf.
  assert (Hsplit : m_split_mode (cruwrite offset data d) = m_split_mode d)
    by congruence.
  unfold cru_page_pattern. rewrite Hsplit, Hrambo.
  destruct (Z.eqb_spec (cru_bit offset) 1) as [E | _].
  { rewrite E. reflexivity. }
  destruct (Z.eqb_spec (cru_bit offset) 2) as [E | _].
  { rewrite E. reflexivity. }
  reflexivity.
Qed.

(** X20.  Repeating a CRU write changes nothing more: two successive
    [cruwrite] calls with the same offset and data leave the card as one
    does. *)
Theorem cruwrite_twice_is_once :
  forall (d : horizon_ramdisk_device) (offset : offs_t) (data : uint8_t),
    cruwrite offset data (cruwrite offset data d) = cruwrite offset data d.
Proof.
  intros d offset data.
  destruct (cru_match d offset) eqn:Hmatch.
  2: { unfold cruwrite. now rewrite !Hmatch. }
  set (d1 := cruwrite offset data d).
  pose proof (cruwrite_configuration d offset data) as Hconf.
  fold d1 in Hconf. unfold configuration in Hconf.
  assert (Hmatch1 : cru_match d1 offset = true).
  { unfold cru_match in *.
    replace (m_cru_horizon d1) with (m_cru_horizon d) by congruence.
    replace (m_cru_phoenix d1) with (m_cru_phoenix d) by congruence.
    exact Hmatch. }
  destruct (cruwrite_flags d offset data Hmatch) as [Hsel Hrambo].
  destruct (cruwrite_flags d1 offset data Hmatch1) as [Hsel1 Hrambo1].
  fold d1 in Hsel, Hrambo.
  rewrite (cruwrite_shape d1 offset data).
  assert (Es : m_selected (cruwrite offset data d1) = m_selected d1).
  { rewrite Hsel1, Hsel. destruct (cru_bit offset =? 0); reflexivity. }
  assert (Er : m_rambo_mode (cruwrite offset data d1) = m_rambo_mode d1).
  { rewrite Hrambo1, Hrambo.
    replace (m_use_rambo d1) with (m_use_rambo d) by congruence.
    destruct ((cru_bit offset =? 15) && m_use_rambo d); reflexivity. }
  assert (Ep : m_page (cruwrite offset data d1) = m_page d1).
  { apply Z.bits_inj'. intros j Hj.
    pose proof (cruwrite_page_bits d offset data j Hmatch Hj) as Hbits.
    fold d1 in Hbits. cbv zeta in Hbits.
    rewrite (cruwrite_page_bits d1 offset data j Hmatch1 Hj).
    unfold d1 at 4. rewrite (cru_page_pattern_after d offset data _ Hmatch).
    replace (ioport d1) with (ioport d) by congruence.
    replace (m_split_mode d1) with (m_split_mode d) by congruence.
    assert (Hsd : split_drive d1 offset = split_drive d offset).
    { unfold split_drive.
      replace (m_timode d1) with (m_timode d) by congruence.
      replace (m_cru_phoenix d1) with (m_cru_phoenix d) by congruence.
      reflexivity. }
    rewrite Hsd, Hbits.
    destruct (m_split_mode d && (j =? 9 + read_HORIZONSIZE (HORIZONSIZE (ioport d))));
      [reflexivity |].
    destruct (cru_page_pattern d (read_HORIZONSIZE (HORIZONSIZE (ioport d)))
                (cru_bit offset)) as [pattern |]; [| reflexivity].
    destruct (Z.testbit pattern j); reflexivity. }
  rewrite Es, Er, Ep. apply registers_eta.
Qed.

(** ** The swapped CRU lines *)

Lemma low_lines_page (page : Z) (a b : bool) :
  0 <= page < 2 ^ 13 ->
  setbit (setbit page 0x0002 a) 0x0001 b
  = Z.lor (Z.land page 0xfffc) (2 * (if a then 1 else 0) + (if b then 1 else 0)).
Proof.
  intros Hpage. apply Z.bits_inj'. intros j Hj.
  rewrite !testbit_setbit, Z.lor_spec, Z.land_spec, testbit_0xfffc by assumption.
  assert (T1 : Z.testbit 0x0001 j = (j =? 0)) by (apply (testbit_pow2 0 j); lia).
  assert (T2 : Z.testbit 0x0002 j = (j =? 1)) by (apply (testbit_pow2 1 j); lia).
  rewrite T1, T2. clear T1 T2.
  assert (Hhigh : 13 <= j -> Z.testbit page j = false).
  { intros Hge. replace page with (page mod 2 ^ 13) by (apply Z.mod_small; lia).
    apply Z.mod_pow2_bits_high. lia. }
  destruct (Z.eqb_spec j 0) as [-> | H0].
  { destruct a, b; cbn; rewrite ?andb_false_r; reflexivity. }
  destruct (Z.eqb_spec j 1) as [-> | H1].
  { destruct a, b; cbn; rewrite ?andb_false_r; reflexivity. }
  assert (Hq : Z.testbit (2 * (if a then 1 else 0) + (if b then 1 else 0)) j = false).
  { assert (2 * (if a then 1 else 0) + (if b then 1 else 0) = Z.land
              (2 * (if a then 1 else 0) + (if b then 1 else 0)) (Z.ones 2)) as ->
      by (destruct a, b; reflexivity).
    rewrite Z.land_spec, testbit_ones by lia.
    destruct (Z.ltb_spec j 2); [lia | apply andb_false_r]. }
  rewrite Hq, orb_false_r.
  destruct (Z.leb_spec 2 j); [| lia].
  destruct (Z.ltb_spec j 16); cbn [andb].
  - now rewrite andb_true_r.
  - rewrite Hhigh by lia. reflexivity.
Qed.

(** X21.  The swapped CRU lines make the two regimes agree.  In Horizon
    mode on a card that is not split, writing [a] to CRU bit 1 and [b] to
    CRU bit 2 selects, within the block of four pages of the current page,
    the quarter [2a + b]: the page window then shows the bytes that RAMBO
    mode shows at offsets [0x800 * (2a + b)] to [0x800 * (2a + b) + 0x7ff]
    of that block.  Counting Horizon pages with CRU bit 1 as the low bit,
    a RAMBO block thus holds pages 4n, 4n+2, 4n+1, 4n+3 in this order. *)
Theorem cru_lines_select_rambo_quarter :
  forall (d : horizon_ramdisk_device) (o1 o2 : offs_t) (a b : uint8_t)
         (offset : offs_t),
    let d' := cruwrite o2 b (cruwrite o1 a d) in
    let q := 2 * (if nonzero a then 1 else 0) + (if nonzero b then 1 else 0) in
    cru_match d o1 = true -> cru_bit o1 = 1 ->
    cru_match d o2 = true -> cru_bit o2 = 2 ->
    m_rambo_mode d = false ->
    m_split_mode d = false ->
    0 <= m_page d < 0x2000 ->
    m_page d' = Z.lor (Z.land (m_page d) 0xfffc) q
    /\ horizon_index (m_page d') offset
       = rambo_index (m_page d) (0x800 * q + Z.land offset 0x07ff).
Proof.
  intros d o1 o2 a b offset d' q Hm1 Hb1 Hm2 Hb2 Hrambo Hsplit Hpage.
  set (d1 := cruwrite o1 a d).
  pose proof (cruwrite_configuration d o1 a) as Hconf.
  fold d1 in Hconf. unfold configuration in Hconf.
  destruct (cruwrite_flags d o1 a Hm1) as [_ Hrambo1]. fold d1 in Hrambo1.
  rewrite Hb1 in Hrambo1. cbn [Z.eqb andb] in Hrambo1.
  assert (Hm2' : cru_match d1 o2 = true).
  { unfold cru_match in *.
    replace (m_cru_horizon d1) with (m_cru_horizon d) by congruence.
    replace (m_cru_phoenix d1) with (m_cru_phoenix d) by congruence.
    exact Hm2. }
  assert (Hp1 : m_page d1 = setbit (m_page d) 0x0002 (nonzero a)).
  { unfold d1. rewrite (cruwrite_page d o1 a Hm1), Hsplit, Hb1.
    unfold cru_page_pattern. cbn [Z.eqb]. now rewrite Hrambo. }
  assert (Hp2 : m_page d' = setbit (m_page d1) 0x0001 (nonzero b)).
  { unfold d'. fold d1. rewrite (cruwrite_page d1 o2 b Hm2'), Hb2.
    replace (m_split_mode d1) with (m_split_mode d) by congruence.
    rewrite Hsplit. unfold cru_page_pattern. cbn [Z.eqb Pos.eqb].
    now rewrite Hrambo1, Hrambo. }
  assert (Hpage' : m_page d' = Z.lor (Z.land (m_page d) 0xfffc) q).
  { rewrite Hp2, Hp1. now apply low_lines_page. }
  split; [exact Hpage' |].
  rewrite rambo_index_as_horizon, Hpage'.
  apply horizon_index_inj.
  assert (Hr : 0 <= Z.land offset 0x07ff < 2048).
  { change 0x07ff with (Z.ones 11). rewrite land_low_ones by lia.
    apply Z.mod_pos_bound. reflexivity. }
  set (r := Z.land offset 0x07ff) in *.
  assert (Hq : 0 <= q <= 3) by (subst q; destruct (nonzero a), (nonzero b); lia).
  split.
  - f_equal. rewrite Z.shiftr_div_pow2 by lia. change (2 ^ 11) with 2048.
    replace ((0x800 * q + r) / 2048) with q
      by (apply Z.div_unique with (r := r); lia).
    change 3 with (Z.ones 2). rewrite land_low_ones by lia.
    change (2 ^ 2) with 4. rewrite Z.mod_small by lia. reflexivity.
  - change 0x07ff with (Z.ones 11). rewrite (land_low_ones (0x800 * q + r)) by lia.
    change (2 ^ 11) with 2048.
    subst r. change (Z.ones 11) with 0x07ff.
    apply Z.mod_unique with (q := q); lia.
Qed.

(** ** HLCD 0538 *)

(** [write_data] latches the level of the data pin: [m_data] becomes
    1 for any non-zero line state and 0 for zero, the other pins and the
    shift register are not touched, and of two writes the last one wins. *)
Theorem write_data_latches_level :
  forall (c : hlcd0538_device) (state state' : Z),
    m_data (write_data state c) = (if state =? 0 then 0 else 1)
    /\ (m_int (write_data state c), m_clk (write_data state c),
        m_shift (write_data state c)) = (m_int c, m_clk c, m_shift c)
    /\ write_data state' (write_data state c) = write_data state' c.
Proof.
  intros c state state'. unfold write_data, nonzero.
  destruct (state =? 0); repeat split; reflexivity.
Qed.

(** ** QVT-103 address maps *)

(** X22.  The address maps of the terminal are unambiguous.  No two lines
    of [mem_map] overlap, so which line serves an address does not depend
    on their order; the unmapped addresses are exactly 6002-7fff, 8800-9fff
    and a040-bfff (and what lies outside 0000-ffff).  In I/O space only the
    low eight address bits count: ports 14-17 reach the DART and 18-1b the
    CTC at every multiple of 256 above them. *)
Theorem qvt103_maps_unambiguous :
  forall (a k : Z),
    mem_lookup a = option_map target (find (covers a) mem_map)
    /\ (mem_lookup a = None <->
        a < 0 \/ 0x6001 < a < 0x8000 \/ 0x87ff < a < 0xa000
        \/ 0xa03f < a < 0xc000 \/ 0xffff < a)
    /\ io_lookup (a + 256 * k) = io_lookup a
    /\ io_lookup a =
         (if (0x14 <=? Z.land a 0xff) && (Z.land a 0xff <=? 0x17) then Some T_dart
          else if (0x18 <=? Z.land a 0xff) && (Z.land a 0xff <=? 0x1b) then Some T_ctc
          else None).
Proof.
  intros a k. split; [| split; [| split]].
  - unfold mem_lookup, map_lookup, mem_map, covers. cbn -[Z.leb].
    repeat match goal with
           | |- context [?x <=? ?y] => destruct (Z.leb_spec x y)
           end; cbn [andb option_map target]; try reflexivity; lia.
  - unfold mem_lookup, map_lookup, mem_map, covers. cbn -[Z.leb].
    repeat match goal with
           | |- context [?x <=? ?y] => destruct (Z.leb_spec x y)
           end; cbn [andb option_map target];
      (split; [intros Hnone; try discriminate Hnone; lia
              | intros Hhole; try reflexivity; lia]).
  - unfold io_lookup, io_global_mask. f_equal.
    change 0xff with (Z.ones 8). rewrite !land_low_ones by lia.
    change (2 ^ 8) with 256.
    rewrite Z.mul_comm. apply Z.mod_add. lia.
  - unfold io_lookup, io_global_mask, map_lookup, io_map, covers. cbn -[Z.leb Z.land].
    repeat match goal with
           | |- context [?x <=? ?y] => destruct (Z.leb_spec x y)
           end; cbn [andb option_map target]; try reflexivity; lia.
Qed.

(** ** The further statements at concrete cards *)

Lemma read_after_write_witness :
  access_decoded dsr_4000 cart_6000 selected_card 0x5803 = true
  /\ access_decoded dsr_4000 cart_6000 rambo_card 0x6005 = true
  /\ fst (readz dsr_4000 cart_6000 0x5803 0
            (write dsr_4000 cart_6000 0x5803 0x5a selected_card)) = 0x5a
  /\ fst (readz dsr_4000 cart_6000 0x6005 0
            (write dsr_4000 cart_6000 0x6005 0x5a rambo_card)) = 0x5a.
Proof.
  split; [reflexivity | split; [reflexivity | split]].
  - exact (read_after_write dsr_4000 cart_6000 selected_card 0x5803 0 0x5a eq_refl).
  - exact (read_after_write dsr_4000 cart_6000 rambo_card 0x6005 0 0x5a eq_refl).
Defined.

Lemma undecoded_access_is_void_witness :
  access_decoded dsr_4000 cart_6000 (sample_card default_ports) 0x4000 = false
  /\ write dsr_4000 cart_6000 0x4000 0x5a (sample_card default_ports)
     = sample_card default_ports
  /\ readz dsr_4000 cart_6000 0x4000 0x77 (sample_card default_ports)
     = (0x77, sample_card default_ports).
Proof.
  split; [reflexivity |].
  exact (undecoded_access_is_void dsr_4000 cart_6000 (sample_card default_ports)
           0x4000 0x77 0x5a eq_refl).
Defined.

Lemma horizon_pages_disjoint_witness :
  (3 = 3 /\ Z.land 0x5801 0x07ff = Z.land 0x0001 0x07ff)
  /\ horizon_index 3 0x5801 = horizon_index 3 0x0001.
Proof.
  assert (H : 3 = 3 /\ Z.land 0x5801 0x07ff = Z.land 0x0001 0x07ff)
    by (split; reflexivity).
  split; [exact H |].
  exact (proj2 (horizon_pages_disjoint 3 3 0x5801 0x0001) H).
Defined.

Lemma horizon_write_stays_in_page_witness :
  m_rambo_mode selected_card = false
  /\ ram32k_index selected_card 0x5800 = None
  /\ Z.land 0x5800 0x1800 = 0x1800
  /\ 1 <> m_page selected_card
  /\ fst (readz dsr_4000 cart_6000 0x5800 0
            (set_m_page (write dsr_4000 cart_6000 0x5800 0x5a selected_card) 1))
     = fst (readz dsr_4000 cart_6000 0x5800 0 (set_m_page selected_card 1)).
Proof.
  assert (Hpage : 1 <> m_page selected_card) by (cbn; discriminate).
  split; [reflexivity | split; [reflexivity | split; [reflexivity | split]]].
  - exact Hpage.
  - exact (horizon_write_stays_in_page dsr_4000 cart_6000 selected_card
             0x5800 0x5800 0x5a 0 1 eq_refl eq_refl eq_refl Hpage).
Defined.

Lemma cruwrite_changes_three_registers_witness :
  cru_match (sample_card default_ports) 0x1300 = false
  /\ cruwrite 0x1300 1 (sample_card default_ports) = sample_card default_ports.
Proof.
  split; [reflexivity |].
  exact (proj2 (cruwrite_changes_three_registers (sample_card default_ports) 0x1300 1)
           eq_refl).
Defined.

Lemma rambo_needs_configuration_witness :
  RAMBO (ioport (sample_card plain_ports)) = false
  /\ m_rambo_mode
       (run dsr_4000 cart_6000 [op_cruwrite 0x1200 1; op_cruwrite 0x121e 1]
          (device_reset (sample_card plain_ports))) = false
  /\ access_decoded dsr_4000 cart_6000
       (run dsr_4000 cart_6000 [op_cruwrite 0x1200 1; op_cruwrite 0x121e 1]
          (device_reset (sample_card plain_ports))) 0x6000 = false.
Proof.
  split; [reflexivity |].
  destruct (rambo_needs_configuration dsr_4000 cart_6000 (sample_card plain_ports)
              [op_cruwrite 0x1200 1; op_cruwrite 0x121e 1] 0x6000 eq_refl)
    as [Hoff Hvoid].
  split; [exact Hoff | exact (Hvoid eq_refl eq_refl)].
Defined.

Lemma split_drives_use_separate_halves_witness :
  m_split_mode expansion_card = true
  /\ cru_match expansion_card 0x1400 = true
  /\ 0 <= m_page expansion_card < Z.shiftl 0x400 1
  /\ split_drive expansion_card 0x1400 = true
  /\ 2097152 <= horizon_index (m_page (cruwrite 0x1400 1 expansion_card)) 0x5800
     < 4194304.
Proof.
  assert (Hpage : 0 <= m_page expansion_card < Z.shiftl 0x400 1) by (cbn; lia).
  split; [reflexivity | split; [reflexivity | split; [exact Hpage | split]]].
  - reflexivity.
  - exact (proj1 (split_drives_use_separate_halves expansion_card 0x1400 1 0x5800
                    eq_refl eq_refl Hpage)).
Defined.

Lemma select_opens_dsr_space_witness :
  HORIZONACT (ioport (sample_card default_ports)) = false
  /\ cru_match (device_reset (sample_card default_ports)) 0x1200 = true
  /\ cru_bit 0x1200 = 0
  /\ 1 <> 0
  /\ access_decoded dsr_4000 cart_6000
       (cruwrite 0x1200 1 (device_reset (sample_card default_ports))) 0x4000 = true
  /\ m_page (cruwrite 0x1200 1 (device_reset (sample_card default_ports))) = 0.
Proof.
  assert (H10 : 1 <> 0) by discriminate.
  split; [reflexivity | split; [reflexivity | split; [reflexivity | split]]].
  - exact H10.
  - exact (select_opens_dsr_space dsr_4000 cart_6000 (sample_card default_ports)
             0x1200 1 0x4000 eq_refl eq_refl eq_refl H10).
Defined.

Lemma hideswitch_hides_and_restores_witness :
  1 <> 0
  /\ m_hideswitch selected_card = false
  /\ access_decoded dsr_4000 cart_6000 (hs_changed 1 selected_card) 0x4000 = false
  /\ hs_changed 0 (hs_changed 1 selected_card) = selected_card.
Proof.
  assert (H10 : 1 <> 0) by discriminate.
  split; [exact H10 | split; [reflexivity |]].
  destruct (hideswitch_hides_and_restores dsr_4000 cart_6000 selected_card 1 0x4000
              H10) as (Hhidden & _ & Hback).
  split; [exact Hhidden | exact (Hback eq_refl)].
Defined.

Lemma cru_base_off_is_base_zero_witness :
  Z.land 0x0000 0xff00 = 0
  /\ CRUPHOE (ioport (sample_card default_ports)) = CRUPHOE_off
  /\ cru_match (device_reset (sample_card default_ports)) 0x0000 = true
  /\ m_selected (cruwrite 0x0000 1 (device_reset (sample_card default_ports))) = true.
Proof.
  split; [reflexivity | split; [reflexivity |]].
  destruct (cru_base_off_is_base_zero (sample_card default_ports) 0x0000 eq_refl)
    as [_ Hreset].
  destruct (Hreset (or_intror eq_refl)) as [Hmatch Hsel].
  split; [exact Hmatch | exact (Hsel eq_refl)].
Defined.

Lemma short_file_gives_default_witness :
  Z.of_nat (List.length [1; 2; 3]) < 8192
  /\ nvram_read [1; 2; 3] (sample_card default_ports)
     = nvram_default (sample_card default_ports).
Proof.
  assert (Hshort : Z.of_nat (List.length [1; 2; 3]) < 8192) by (cbn; lia).
  split; [exact Hshort |].
  exact (proj1 (short_file_gives_default (sample_card default_ports) [1; 2; 3] 0
                  Hshort)).
Defined.

Lemma nvram_read_write_roundtrip_witness :
  nvram_write (nvram_read (nvram_write selected_card) (sample_card default_ports))
  = nvram_write selected_card.
Proof.
  apply (nvram_read_write_roundtrip (sample_card default_ports)
           (nvram_write selected_card)).
  rewrite (nvram_write_length selected_card), configured_size_pow2. reflexivity.
Defined.

Lemma cru_lines_select_rambo_quarter_witness :
  cru_match (sample_card default_ports) 0x1202 = true /\ cru_bit 0x1202 = 1
  /\ cru_match (sample_card default_ports) 0x1204 = true /\ cru_bit 0x1204 = 2
  /\ m_rambo_mode (sample_card default_ports) = false
  /\ m_split_mode (sample_card default_ports) = false
  /\ 0 <= m_page (sample_card default_ports) < 0x2000
  /\ m_page (cruwrite 0x1204 0 (cruwrite 0x1202 1 (sample_card default_ports))) = 2
  /\ horizon_index
       (m_page (cruwrite 0x1204 0 (cruwrite 0x1202 1 (sample_card default_ports))))
       0x5805
     = rambo_index (m_page (sample_card default_ports)) 0x1005.
Proof.
  assert (Hpage : 0 <= m_page (sample_card default_ports) < 0x2000) by (cbn; lia).
  do 6 (split; [reflexivity |]). split; [exact Hpage |].
  exact (cru_lines_select_rambo_quarter (sample_card default_ports) 0x1202 0x1204
           1 0 0x5805 eq_refl eq_refl eq_refl eq_refl eq_refl eq_refl Hpage).
Defined.

Lemma qvt103_maps_unambiguous_witness :
  0x6001 < 0x7000 < 0x8000 /\ mem_lookup 0x7000 = None.
Proof.
  assert (Hhole : 0x6001 < 0x7000 < 0x8000) by lia.
  split; [exact Hhole |].
  destruct (qvt103_maps_unambiguous 0x7000 0) as (_ & Hnone & _).
  exact (proj2 Hnone (or_intror (or_introl Hhole))).
Defined.

(** ** Every page can be selected *)

Lemma cru_page_pattern_plain (d : horizon_ramdisk_device) (size bit : Z) :
  m_rambo_mode d = false -> m_split_mode d = false ->
  0 <= size -> 1 <= bit <= 13 ->
  cru_page_pattern d size bit
  = if bit <=? size + 10 then Some (2 ^ cru_page_line bit) else None.
Proof.
  intros Hrambo Hsplit Hsize Hbit.
  unfold cru_page_pattern, cru_page_line. rewrite Hrambo, Hsplit, andb_false_r.
  cbn [orb].
  destruct (Z.eqb_spec bit 1) as [-> | H1].
  { destruct (Z.leb_spec 1 (size + 10)); [reflexivity | lia]. }
  destruct (Z.eqb_spec bit 2) as [-> | H2].
  { destruct (Z.leb_spec 2 (size + 10)); [reflexivity | lia]. }
  destruct (Z.leb_spec 3 bit); [| lia].
  destruct (Z.leb_spec bit 9); cbn [andb].
  { rewrite Z.shiftl_1_l. destruct (Z.leb_spec bit (size + 10)); [reflexivity | lia]. }
  destruct (Z.leb_spec 10 bit), (Z.leb_spec bit 13); cbn [andb]; try lia.
  destruct (Z.ltb_spec (size + 10) bit), (Z.leb_spec bit (size + 10)); try lia.
  - reflexivity.
  - rewrite shiftl_0x200 by lia. do 2 f_equal. lia.
Qed.

Lemma cru_line_offset (s : CRUHOR_setting) (bit : Z) :
  1 <= bit <= 13 ->
  Z.land (read_CRUHOR s + 2 * bit) 0xff00 = read_CRUHOR s
  /\ cru_bit (read_CRUHOR s + 2 * bit) = bit.
Proof.
  intros Hbit.
  assert (Hcases : bit = 1 \/ bit = 2 \/ bit = 3 \/ bit = 4 \/ bit = 5 \/ bit = 6
                   \/ bit = 7 \/ bit = 8 \/ bit = 9 \/ bit = 10 \/ bit = 11
                   \/ bit = 12 \/ bit = 13) by lia.
  repeat (destruct Hcases as [-> | Hcases]); [.. | subst bit];
    destruct s; split; reflexivity.
Qed.

Lemma nonzero_bit (b : bool) : nonzero (if b then 1 else 0) = b.
Proof. destruct b; reflexivity. Qed.

(** One page line written on a card in Horizon mode that is not split. *)
Lemma page_line_write (d : horizon_ramdisk_device) (s : CRUHOR_setting)
    (bit : Z) (v : bool) :
  let size := read_HORIZONSIZE (HORIZONSIZE (ioport d)) in
  let d' := cruwrite (read_CRUHOR s + 2 * bit) (if v then 1 else 0) d in
  m_cru_horizon d = read_CRUHOR s ->
  m_rambo_mode d = false -> m_split_mode d = false ->
  1 <= bit <= 13 ->
  (m_cru_horizon d' = read_CRUHOR s /\ m_rambo_mode d' = false
   /\ m_split_mode d' = false /\ ioport d' = ioport d)
  /\ forall j, 0 <= j ->
       Z.testbit (m_page d') j
       = if (bit <=? size + 10) && (j =? cru_page_line bit) then v
         else Z.testbit (m_page d) j.
Proof.
  intros size d' Hbase Hrambo Hsplit Hbit.
  destruct (cru_line_offset s bit Hbit) as [Hhigh Hcru].
  pose proof (read_HORIZONSIZE_range (HORIZONSIZE (ioport d))) as Hsize.
  fold size in Hsize.
  assert (Hmatch : cru_match d (read_CRUHOR s + 2 * bit) = true).
  { unfold cru_match. rewrite Hhigh, Hbase, Z.eqb_refl. reflexivity. }
  pose proof (cruwrite_configuration d (read_CRUHOR s + 2 * bit)
                (if v then 1 else 0)) as Hconf.
  fold d' in Hconf. unfold configuration in Hconf.
  destruct (cruwrite_flags d _ (if v then 1 else 0) Hmatch) as [_ Hrambo'].
  fold d' in Hrambo'. rewrite Hcru in Hrambo'.
  split.
  - repeat split; try congruence.
    rewrite Hrambo', Hrambo.
    destruct (Z.eqb_spec bit 15); [lia | reflexivity].
  - intros j Hj. subst d'.
    rewrite (cruwrite_page_bits d _ _ j Hmatch Hj). fold size.
    rewrite Hsplit, Hcru. cbn [andb].
    rewrite (cru_page_pattern_plain d size bit Hrambo Hsplit) by lia.
    rewrite nonzero_bit.
    destruct (Z.leb_spec bit (size + 10)); cbn [andb]; [| reflexivity].
    rewrite testbit_pow2; [reflexivity |].
    unfold cru_page_line.
    destruct (Z.eqb_spec bit 1), (Z.eqb_spec bit 2); lia.
Qed.

Lemma page_line_writes_bits (s : CRUHOR_setting) (page : Z) (bits : list Z) :
  forall d : horizon_ramdisk_device,
    let size := read_HORIZONSIZE (HORIZONSIZE (ioport d)) in
    let d' := cruwrites (page_line_writes (read_CRUHOR s) page bits) d in
    m_cru_horizon d = read_CRUHOR s ->
    m_rambo_mode d = false -> m_split_mode d = false ->
    (forall bit, In bit bits -> 1 <= bit <= 13) ->
    forall j, 0 <= j ->
      Z.testbit (m_page d') j
      = if existsb (fun bit => (bit <=? size + 10) && (j =? cru_page_line bit)) bits
        then Z.testbit page j
        else Z.testbit (m_page d) j.
Proof.
  induction bits as [| bit bits IH]; intros d size d' Hbase Hrambo Hsplit Hbits j Hj.
  - reflexivity.
  - subst d'. unfold cruwrites, page_line_writes in *.
    cbn [map fold_left fst snd existsb].
    assert (Hbit : 1 <= bit <= 13) by (apply Hbits; now left).
    destruct (page_line_write d s bit (Z.testbit page (cru_page_line bit))
                Hbase Hrambo Hsplit Hbit) as [(Hbase' & Hrambo' & Hsplit' & Hio) Hone].
    set (d1 := cruwrite (read_CRUHOR s + 2 * bit) _ d) in *.
    rewrite IH; try assumption.
    + rewrite Hio. fold size. rewrite (Hone j Hj). fold size.
      destruct ((bit <=? size + 10) && (j =? cru_page_line bit)) eqn:Hhit;
        cbn [orb]; [| reflexivity].
      apply andb_true_iff in Hhit as [_ Hline]. apply Z.eqb_eq in Hline. subst j.
      destruct (existsb _ bits); reflexivity.
    + intros b Hb. apply Hbits. now right.
Qed.

(** X23.  Every page of the configured size can be selected.  On a card in
    Horizon mode that is not split, with its Horizon CRU base at one of the
    settings of the port and its page register inside the configured size,
    writing the bits of any page number below [0x400 << size] to CRU bits 1
    to 13 (bit 1 carrying page bit 1, bit 2 page bit 0, bit k page bit
    k - 1) leaves exactly that number in [m_page]. *)
Theorem any_page_can_be_selected :
  forall (d : horizon_ramdisk_device) (s : CRUHOR_setting) (page : Z),
    let size := read_HORIZONSIZE (HORIZONSIZE (ioport d)) in
    m_cru_horizon d = read_CRUHOR s ->
    m_rambo_mode d = false ->
    m_split_mode d = false ->
    0 <= m_page d < Z.shiftl 0x400 size ->
    0 <= page < Z.shiftl 0x400 size ->
    m_page (cruwrites (select_page (read_CRUHOR s) page) d) = page.
Proof.
  intros d s page size Hbase Hrambo Hsplit Hold Hnew.
  pose proof (read_HORIZONSIZE_range (HORIZONSIZE (ioport d))) as Hsize.
  fold size in Hsize.
  assert (Hshift : Z.shiftl 0x400 size = 2 ^ (10 + size)).
  { rewrite Z.shiftl_mul_pow2, Z.pow_add_r by lia. reflexivity. }
  rewrite Hshift in Hold, Hnew.
  assert (Hhigh : forall x j, 0 <= x < 2 ^ (10 + size) -> 10 + size <= j ->
                              Z.testbit x j = false).
  { intros x j Hx Hge. replace x with (x mod 2 ^ (10 + size)) by (apply Z.mod_small; lia).
    apply Z.mod_pow2_bits_high. lia. }
  apply Z.bits_inj'. intros j Hj. unfold select_page.
  rewrite (page_line_writes_bits s page _ d Hbase Hrambo Hsplit); [| | exact Hj].
  2: { intros bit Hin. cbn in Hin.
       repeat (destruct Hin as [<- | Hin]; [lia |]). contradiction. }
  fold size.
  destruct (existsb _ _) eqn:Hex; [reflexivity |].
  destruct (Z.lt_ge_cases j (10 + size)) as [Hlow | Hge].
  - exfalso. cbn [existsb] in Hex. unfold cru_page_line in Hex. cbn [Z.eqb Pos.eqb] in Hex.
    repeat match type of Hex with
           | context [?a <=? ?b] => destruct (Z.leb_spec a b); try lia
           | context [?a =? ?b] => destruct (Z.eqb_spec a b); try lia
           end; cbn in Hex; discriminate Hex.
  - rewrite (Hhigh _ j Hold Hge), (Hhigh _ j Hnew Hge). reflexivity.
Qed.

Lemma any_page_can_be_selected_witness :
  m_cru_horizon (sample_card default_ports) = read_CRUHOR CRUHOR_1200
  /\ m_rambo_mode (sample_card default_ports) = false
  /\ m_split_mode (sample_card default_ports) = false
  /\ 0 <= m_page (sample_card default_ports) < Z.shiftl 0x400 0
  /\ 0 <= 0x2a5 < Z.shiftl 0x400 0
  /\ m_page (cruwrites (select_page 0x1200 0x2a5) (sample_card default_ports)) = 0x2a5.
Proof.
  assert (Hold : 0 <= m_page (sample_card default_ports) < Z.shiftl 0x400 0)
    by (cbn; lia).
  assert (Hnew : 0 <= 0x2a5 < Z.shiftl 0x400 0) by (cbn; lia).
  do 3 (split; [reflexivity |]). split; [exact Hold | split; [exact Hnew |]].
  exact (any_page_can_be_selected (sample_card default_ports) CRUHOR_1200 0x2a5
           eq_refl eq_refl eq_refl Hold Hnew).
Defined.
